(** * mergekit.architecture: weight enumeration, template substitution,
      architecture resolution and the mapping table

    A shallow embedding of [src/mergekit/architecture.py].  Python
    exceptions are values of [exn] carried by the error monad [result];
    dictionaries are [gmap]s; the attributes of a [PretrainedConfig] are a
    finite map from attribute names to dynamically typed values. *)

From Stdlib Require Import ZArith Ascii String List Lia DecimalString.
From Stdlib Require DecimalPos DecimalZ.
From stdpp Require Import base option list gmap strings.

Local Open Scope Z_scope.

(** ** Python values found in a configuration *)

(** The attribute values of a configuration object.  [bool] and [float]
    values are not modelled. *)
#[warnings="-register-all"]
Inductive pyval : Type :=
  | PyNone
  | PyInt (n : Z)
  | PyStr (s : string)
  | PyList (l : list pyval).

(** ** Exceptions and the error monad *)

(** The three messages of the [RuntimeError]s the resolver raises, with the
    values their f-strings interpolate. *)
Inductive runtime_msg : Type :=
  | MoreThanOneArchitecture
  | UnsupportedArchitecture (arch_name : pyval)
  | UnsupportedModelType (model_type arch_name : pyval).

Inductive exn : Type :=
  | AttributeError (attr : string)
  | TypeError (what : string)
  | KeyError (key : string)
  | ValueError (what : string)
  | IndexError (what : string)
  | ValidationError (what : string)
  | RuntimeError (msg : runtime_msg).

Inductive result (A : Type) : Type :=
  | Ok (a : A)
  | Err (e : exn).
Arguments Ok {A} a.
Arguments Err {A} e.

#[global] Instance result_ret : MRet result := fun A a => Ok a.
#[global] Instance result_bind : MBind result := fun A B f m =>
  match m with
  | Ok a => f a
  | Err e => Err e
  end.

(** [[f(x) for x in l]], stopping at the first exception. *)
Fixpoint comprehension {A B} (f : A -> result B) (l : list A) : result (list B) :=
  match l with
  | [] => Ok []
  | x :: l' => y ← f x; ys ← comprehension f l'; Ok (y :: ys)
  end.

(** [for x in l: acc = body(acc, x)], stopping at the first exception. *)
Fixpoint for_each {A S} (body : S -> A -> result S) (l : list A) (acc : S) : result S :=
  match l with
  | [] => Ok acc
  | x :: l' => acc' ← body acc x; for_each body l' acc'
  end.

(** [str(n)] for an [int]. *)
Definition str_of_int (n : Z) : string := NilZero.string_of_int (Z.to_int n).

(** [range(n)] for an [int] [n]. *)
Definition range (n : Z) : list Z := map Z.of_nat (seq 0 (Z.to_nat n)).

(** [range(v)] for a dynamically typed [v]. *)
Definition py_range (v : pyval) : result (list Z) :=
  match v with
  | PyInt n => Ok (range n)
  | PyNone => Err (TypeError "'NoneType' object cannot be interpreted as an integer")
  | PyStr _ => Err (TypeError "'str' object cannot be interpreted as an integer")
  | PyList _ => Err (TypeError "'list' object cannot be interpreted as an integer")
  end.

(** A [PretrainedConfig] seen through its attributes.  An attribute that is
    absent from the map does not exist on the object. *)
Abbreviation PretrainedConfig := (gmap string pyval).

(** [getattr(config, name)]; [name] is [None] when the Python expression
    that supplies it evaluates to [None]. *)
Definition getattr (config : PretrainedConfig) (name : option string) : result pyval :=
  match name with
  | None => Err (TypeError "attribute name must be string, not 'NoneType'")
  | Some k =>
      match config !! k with
      | Some v => Ok v
      | None => Err (AttributeError k)
      end
  end.

(** ** JSON values and pydantic models *)

(** The values [model_dump(mode="json")] produces for the models below. *)
Inductive jval : Type :=
  | JNull
  | JBool (b : bool)
  | JStr (s : string)
  | JStrList (l : list string).

(** A dumped model: keys in field-declaration order. *)
Abbreviation obj_dict := (list (string * jval)).

Fixpoint dict_get (d : obj_dict) (k : string) : option jval :=
  match d with
  | [] => None
  | (k', v) :: d' => if String.eqb k' k then Some v else dict_get d' k
  end.

(** What the code uses of a pydantic [BaseModel]: dumping the explicitly set
    fields, and validating a dictionary back into the model. *)
Class BaseModel (T : Type) : Type := {
  model_dump_exclude_unset : T -> obj_dict;
  model_validate : obj_dict -> result T
}.

(** A field with a default: [None] when it was never explicitly set (it then
    reads as its default), [Some v] when it was set to [v]. *)
Definition dump_field {A} (key : string) (to_json : A -> jval) (f : option A) : obj_dict :=
  match f with
  | Some v => [(key, to_json v)]
  | None => []
  end.

Definition optional_str_to_json (o : option string) : jval :=
  match o with
  | Some s => JStr s
  | None => JNull
  end.

Definition optional_list_to_json (o : option (list string)) : jval :=
  match o with
  | Some l => JStrList l
  | None => JNull
  end.

Definition validate_bool (key : string) (d : obj_dict) : result (option bool) :=
  match dict_get d key with
  | None => Ok None
  | Some (JBool b) => Ok (Some b)
  | Some _ => Err (ValidationError key)
  end.

Definition validate_optional_str (key : string) (d : obj_dict) : result (option (option string)) :=
  match dict_get d key with
  | None => Ok None
  | Some JNull => Ok (Some None)
  | Some (JStr s) => Ok (Some (Some s))
  | Some _ => Err (ValidationError key)
  end.

Definition validate_optional_list (key : string) (d : obj_dict)
  : result (option (option (list string))) :=
  match dict_get d key with
  | None => Ok None
  | Some JNull => Ok (Some None)
  | Some (JStrList l) => Ok (Some (Some l))
  | Some _ => Err (ValidationError key)
  end.

Definition validate_str (key : string) (d : obj_dict) : result string :=
  match dict_get d key with
  | Some (JStr s) => Ok s
  | _ => Err (ValidationError key)
  end.

(** *** WeightInfo *)

Module WeightInfo.
(** [name] is required; every other field has a default. *)
Record t : Type := mk {
  name : string;
  is_embed_field : option bool;
  is_lm_head_field : option bool;
  input_space_field : option (option string);
  output_space_field : option (option string);
  optional_field : option bool;
  aliases_field : option (option (list string))
}.

Definition is_embed (w : t) : bool := default false (is_embed_field w).
Definition is_lm_head (w : t) : bool := default false (is_lm_head_field w).
Definition input_space (w : t) : option string := default None (input_space_field w).
Definition output_space (w : t) : option string := default None (output_space_field w).
Definition optional (w : t) : bool := default false (optional_field w).
Definition aliases (w : t) : option (list string) := default None (aliases_field w).

(** [WeightInfo(name=name)] *)
Definition of_name (n : string) : t := mk n None None None None None None.

Definition dump (w : t) : obj_dict :=
  [("name", JStr (name w))]
  ++ dump_field "is_embed" JBool (is_embed_field w)
  ++ dump_field "is_lm_head" JBool (is_lm_head_field w)
  ++ dump_field "input_space" optional_str_to_json (input_space_field w)
  ++ dump_field "output_space" optional_str_to_json (output_space_field w)
  ++ dump_field "optional" JBool (optional_field w)
  ++ dump_field "aliases" optional_list_to_json (aliases_field w).

Definition validate (d : obj_dict) : result t :=
  n ← validate_str "name" d;
  e ← validate_bool "is_embed" d;
  h ← validate_bool "is_lm_head" d;
  i ← validate_optional_str "input_space" d;
  o ← validate_optional_str "output_space" d;
  p ← validate_bool "optional" d;
  a ← validate_optional_list "aliases" d;
  Ok (mk n e h i o p a).
End WeightInfo.

#[global] Instance WeightInfo_model : BaseModel WeightInfo.t :=
  {| model_dump_exclude_unset := WeightInfo.dump;
     model_validate := WeightInfo.validate |}.

(** *** ProceduralSpaceInfo *)

Module ProceduralSpaceInfo.
(** [type] is [Literal["residual"]]: the field is required and has one
    admissible value. *)
Record t : Type := mk {
  name : string;
  inputs : list string
}.

Definition type (s : t) : string := "residual".

Definition dump (s : t) : obj_dict :=
  [("name", JStr (name s)); ("type", JStr (type s)); ("inputs", JStrList (inputs s))].

Definition validate (d : obj_dict) : result t :=
  n ← validate_str "name" d;
  ty ← validate_str "type" d;
  if negb (String.eqb ty "residual") then Err (ValidationError "type")
  else
    match dict_get d "inputs" with
    | Some (JStrList l) => Ok (mk n l)
    | _ => Err (ValidationError "inputs")
    end.
End ProceduralSpaceInfo.

#[global] Instance ProceduralSpaceInfo_model : BaseModel ProceduralSpaceInfo.t :=
  {| model_dump_exclude_unset := ProceduralSpaceInfo.dump;
     model_validate := ProceduralSpaceInfo.validate |}.

(** ** TemplateWithArithmetic

    [string.Template] with
    [idpattern = (?a:[_a-z][_a-z0-9]*([+-]1)?)], matched with
    [re.IGNORECASE].  The compiled pattern is
    [\$(?: (\$) | (idpattern) | \{(idpattern)\} | () )]:
    an escape, a named placeholder, a braced placeholder, or an ill-formed
    use of the delimiter. *)

Module Template.

Definition in_range (lo hi c : ascii) : bool :=
  ((nat_of_ascii lo <=? nat_of_ascii c)%nat && (nat_of_ascii c <=? nat_of_ascii hi)%nat)%bool.

(** [[_a-z]] under [re.IGNORECASE], ASCII only *)
Definition is_id_start (c : ascii) : bool :=
  (Ascii.eqb c "_" || in_range "a" "z" c || in_range "A" "Z" c)%bool.

(** [[_a-z0-9]] under [re.IGNORECASE], ASCII only *)
Definition is_id_char (c : ascii) : bool :=
  (is_id_start c || in_range "0" "9" c)%bool.

Fixpoint take (n : nat) (s : string) : string :=
  match n, s with
  | S n', String c s' => String c (take n' s')
  | _, _ => EmptyString
  end.

Fixpoint drop (n : nat) (s : string) : string :=
  match n, s with
  | S n', String _ s' => drop n' s'
  | _, _ => s
  end.

(** Length of the greedy match of [[_a-z0-9]*] at the start of [s]. *)
Fixpoint id_run (s : string) : nat :=
  match s with
  | String c s' => if is_id_char c then S (id_run s') else O
  | EmptyString => O
  end.

(** Length of the match of [([+-]1)?] at the start of [s]. *)
Definition arith_suffix (s : string) : nat :=
  match s with
  | String c (String d _) =>
      if ((Ascii.eqb c "+" || Ascii.eqb c "-") && Ascii.eqb d "1")%bool then 2%nat else O
  | _ => O
  end.

(** Length of the match of [idpattern] at the start of [s], if it matches. *)
Definition match_id (s : string) : option nat :=
  match s with
  | String c s' =>
      if is_id_start c
      then let n := id_run s' in Some (S (n + arith_suffix (drop n s')))
      else None
  | EmptyString => None
  end.

Inductive token : Type :=
  | Escaped
  | Named (id : string)
  | Braced (id : string)
  | Invalid.

(** The alternative of the pattern that matches right after a delimiter,
    with the number of characters it takes after the delimiter. *)
Definition token_at (rest : string) : token * nat :=
  match rest with
  | String "$" _ => (Escaped, 1%nat)
  | _ =>
      match match_id rest with
      | Some n => (Named (take n rest), n)
      | None =>
          match rest with
          | String "{" r =>
              match match_id r with
              | Some n =>
                  match drop n r with
                  | String "}" _ => (Braced (take n r), S (S n))
                  | _ => (Invalid, O)
                  end
              | None => (Invalid, O)
              end
          | _ => (Invalid, O)
          end
      end
  end.

(** [convert(mo)] of [Template.substitute]: the replacement of one match. *)
Definition convert (mapping : gmap string Z) (tok : token) : result string :=
  match tok with
  | Named id | Braced id =>
      match mapping !! id with
      | Some v => Ok (str_of_int v)
      | None => Err (KeyError id)
      end
  | Escaped => Ok "$"
  | Invalid => Err (ValueError "Invalid placeholder in string")
  end.

(** [pattern.sub(convert, template)], left to right.  [skip] counts the
    characters still to pass over because they belong to the match that
    was just replaced. *)
Fixpoint sub (mapping : gmap string Z) (skip : nat) (s : string) : result string :=
  match s with
  | EmptyString => Ok EmptyString
  | String c rest =>
      match skip with
      | S k => sub mapping k rest
      | O =>
          if Ascii.eqb c "$"
          then
            let '(tok, n) := token_at rest in
            r ← convert mapping tok;
            tail ← sub mapping n rest;
            Ok (r +:+ tail)
          else
            tail ← sub mapping O rest;
            Ok (String c tail)
      end
  end.

(** [TemplateWithArithmetic(template).substitute(mapping)] *)
Definition substitute (template : string) (mapping : gmap string Z) : result string :=
  sub mapping O template.

End Template.

(** [c in s] for a one-character string [c]. *)
Fixpoint contains (c : ascii) (s : string) : bool :=
  match s with
  | EmptyString => false
  | String c' s' => (Ascii.eqb c' c || contains c s')%bool
  end.

(** ** Declarative architecture definitions *)

Record JSONLayerTemplates : Type := {
  lt_weights : list WeightInfo.t;
  lt_procedural_spaces : option (list ProceduralSpaceInfo.t)
}.

Module JSONArchitectureDefinition.
Record t : Type := mk {
  expected_model_type : string;
  architectures : list string;
  pre_weights : list WeightInfo.t;
  layer_templates : JSONLayerTemplates;
  post_weights : list WeightInfo.t;
  procedural_spaces : option (list ProceduralSpaceInfo.t);
  num_layers_config_key : option string
}.
End JSONArchitectureDefinition.

(** The pydantic model [JsonArchitectureInfo]: its one field is
    [definition]. *)
Record JsonArchitectureInfo : Type := {
  definition : JSONArchitectureDefinition.t
}.

(** [d[k]] on a dictionary. *)
Definition dict_getitem {V} (d : gmap string V) (k : string) : result V :=
  match d !! k with
  | Some v => Ok v
  | None => Err (KeyError k)
  end.

(** Truth value of an [Optional[Dict]]: [None] and the empty dictionary are
    false. *)
Definition dict_truthy {V} (o : option (gmap string V)) : bool :=
  match o with
  | Some d => negb (Nat.eqb (size d) 0)
  | None => false
  end.

(** [[x for x in l if keep(x)]], stopping at the first exception. *)
Fixpoint filter_comprehension {A} (keep : A -> result bool) (l : list A) : result (list A) :=
  match l with
  | [] => Ok []
  | x :: l' =>
      b ← keep x;
      xs ← filter_comprehension keep l';
      Ok (if (b : bool) then x :: xs else xs)
  end.

(** [name in names] on a list of strings. *)
Definition str_in (name : string) (names : list string) : bool :=
  existsb (String.eqb name) names.

Module Json.

(** [JsonArchitectureInfo.num_layers_config_key] *)
Definition num_layers_config_key (self : JsonArchitectureInfo) : option string :=
  JSONArchitectureDefinition.num_layers_config_key (definition self).

(** [ArchitectureInfo.num_layers], inherited. *)
Definition num_layers (self : JsonArchitectureInfo) (config : PretrainedConfig) : result pyval :=
  getattr config (num_layers_config_key self).

(** The table built at the head of [_substitute].  On a [num_layers] that
    is not a number, [num_layers + 1] raises [TypeError]. *)
Definition substitutions (num_layers : pyval) (layer_idx : option Z) : result (gmap string Z) :=
  match num_layers with
  | PyInt n =>
      let substitutions : gmap string Z :=
        <["num_layers-1" := n - 1]> (<["num_layers+1" := n + 1]> (<["num_layers" := n]> ∅)) in
      Ok match layer_idx with
         | Some i =>
             <["layer_index-1" := i - 1]>
               (<["layer_index+1" := i + 1]> (<["layer_index" := i]> substitutions))
         | None => substitutions
         end
  | _ => Err (TypeError "unsupported operand type(s) for +")
  end.

(** One round of the loop over [obj_dict]. *)
Definition substitute_entry (substitutions : gmap string Z) (kv : string * jval)
  : result (string * jval) :=
  match kv with
  | (key, JStr s) =>
      if contains "{" s
      then s' ← Template.substitute s substitutions; Ok (key, JStr s')
      else Ok kv
  | _ => Ok kv
  end.

(** [JsonArchitectureInfo._substitute] *)
Definition _substitute {T} `{BaseModel T} (self : JsonArchitectureInfo) (item : T)
    (config : PretrainedConfig) (layer_idx : option Z) : result T :=
  num_layers ← num_layers self config;
  substitutions ← substitutions num_layers layer_idx;
  let obj_dict := model_dump_exclude_unset item in
  obj_dict ← comprehension (substitute_entry substitutions) obj_dict;
  model_validate obj_dict.

(** [self.overrides] on a [JsonArchitectureInfo].  The class declares the
    field [definition] only, and [ArchitectureInfo] sets no attributes:
    the attribute does not exist and reading it raises. *)
Definition overrides (self : JsonArchitectureInfo)
  : result (option (gmap string (list string))) :=
  Err (AttributeError "overrides").

(** [[wi for wi in weights if wi.name in self.overrides[segment]]] *)
Definition filter_by_overrides (self : JsonArchitectureInfo) (segment : string)
    (weights : list WeightInfo.t) : result (list WeightInfo.t) :=
  filter_comprehension
    (fun wi =>
       o ← overrides self;
       names ← match o : option (gmap string (list string)) with
               | Some d => dict_getitem d segment
               | None => Err (TypeError "'NoneType' object is not subscriptable")
               end;
       Ok (str_in (WeightInfo.name wi) names))
    weights.

(** [JsonArchitectureInfo.pre_weights] *)
Definition pre_weights (self : JsonArchitectureInfo) (config : PretrainedConfig)
  : result (list WeightInfo.t) :=
  weights ← comprehension (fun wi => _substitute self wi config None)
              (JSONArchitectureDefinition.pre_weights (definition self));
  o ← overrides self;
  if dict_truthy o then filter_by_overrides self "pre_weights" weights
  else Ok weights.

(** [JsonArchitectureInfo.layer_weights] *)
Definition layer_weights (self : JsonArchitectureInfo) (index : Z) (config : PretrainedConfig)
  : result (list WeightInfo.t) :=
  comprehension (fun wi => _substitute self wi config (Some index))
    (lt_weights (JSONArchitectureDefinition.layer_templates (definition self))).

(** [JsonArchitectureInfo.post_weights] *)
Definition post_weights (self : JsonArchitectureInfo) (config : PretrainedConfig)
  : result (list WeightInfo.t) :=
  weights ← comprehension (fun wi => _substitute self wi config None)
              (JSONArchitectureDefinition.post_weights (definition self));
  o ← overrides self;
  if dict_truthy o then filter_by_overrides self "post_weights" weights
  else Ok weights.

Definition sliceable (self : JsonArchitectureInfo) : bool := true.

End Json.

(** ** The abstract class [ArchitectureInfo]

    An object of the class is the record of its overridable methods;
    [num_layers] and [all_weights] are the methods the base class
    implements on top of them. *)

Module ArchitectureInfo.

Record t : Type := mk {
  pre_weights : PretrainedConfig -> result (list WeightInfo.t);
  post_weights : PretrainedConfig -> result (list WeightInfo.t);
  layer_weights : Z -> PretrainedConfig -> result (list WeightInfo.t);
  sliceable : bool;
  num_layers_config_key : option string
}.

(** [ArchitectureInfo.num_layers_config_key], the base-class method. *)
Definition default_num_layers_config_key : string := "num_hidden_layers".

(** [ArchitectureInfo.num_layers] *)
Definition num_layers (self : t) (config : PretrainedConfig) : result pyval :=
  getattr config (num_layers_config_key self).

(** [ArchitectureInfo.all_weights] *)
Definition all_weights (self : t) (config : PretrainedConfig) : result (list WeightInfo.t) :=
  num_layers ← num_layers self config;
  res ← pre_weights self config;
  indices ← py_range num_layers;
  res ← for_each
          (fun res layer_idx => lw ← layer_weights self layer_idx config; Ok (res ++ lw))
          indices res;
  post ← post_weights self config;
  Ok (res ++ post).

End ArchitectureInfo.

(** A [JsonArchitectureInfo] as an [ArchitectureInfo]. *)
Definition of_json (j : JsonArchitectureInfo) : ArchitectureInfo.t :=
  {| ArchitectureInfo.pre_weights := Json.pre_weights j;
     ArchitectureInfo.post_weights := Json.post_weights j;
     ArchitectureInfo.layer_weights := Json.layer_weights j;
     ArchitectureInfo.sliceable := Json.sliceable j;
     ArchitectureInfo.num_layers_config_key := Json.num_layers_config_key j |}.

(** ** The hardcoded mixture-of-experts plugin *)

Record MixtralTensorNames : Type := {
  num_local_experts : Z
}.

Module Mixtral.

Definition ARCHITECTURE_NAME : string := "MixtralForCausalLM".

(** [MixtralTensorNames.from_config].  The field is declared [int]; of
    pydantic's validation only the acceptance of an [int] is modelled
    (its conversion of numeric strings is not). *)
Definition from_config (config : PretrainedConfig) : result MixtralTensorNames :=
  v ← getattr config (Some "num_local_experts");
  match v with
  | PyInt n => Ok {| num_local_experts := n |}
  | _ => Err (ValidationError "num_local_experts")
  end.

(** The three names appended for one expert. *)
Definition expert_names (prefix : string) (expert_idx : Z) (tensor_names : list string)
  : list string :=
  fold_left
    (fun tensor_names param =>
       tensor_names ++
         [prefix +:+ ".block_sparse_moe.experts." +:+ str_of_int expert_idx
            +:+ "." +:+ param +:+ ".weight"])
    ["w1"; "w2"; "w3"] tensor_names.

(** [MixtralTensorNames.layer_weights] *)
Definition layer_weights (self : MixtralTensorNames) (index : Z) (config : PretrainedConfig)
  : result (list WeightInfo.t) :=
  let num_experts := num_local_experts self in
  let prefix := "model.layers." +:+ str_of_int index in
  let tensor_names :=
    fold_left (fun tensor_names expert_idx => expert_names prefix expert_idx tensor_names)
      (range num_experts) [] in
  let tensor_names := tensor_names ++ [prefix +:+ ".block_sparse_moe.gate.weight"] in
  let res := fold_left (fun res name => res ++ [WeightInfo.of_name name]) tensor_names [] in
  Ok res.

Definition sliceable (self : MixtralTensorNames) : bool := true.

End Mixtral.

(** A [MixtralTensorNames] as an [ArchitectureInfo].  [MISTRAL_INFO] is the
    module-level definition loaded from the bundled [mistral.json]. *)
Definition of_mixtral (MISTRAL_INFO : JsonArchitectureInfo) (m : MixtralTensorNames)
  : ArchitectureInfo.t :=
  {| ArchitectureInfo.pre_weights := Json.pre_weights MISTRAL_INFO;
     ArchitectureInfo.post_weights := Json.post_weights MISTRAL_INFO;
     ArchitectureInfo.layer_weights := Mixtral.layer_weights m;
     ArchitectureInfo.sliceable := Mixtral.sliceable m;
     ArchitectureInfo.num_layers_config_key := Json.num_layers_config_key MISTRAL_INFO |}.

(** ** ConfiguredArchitectureInfo *)

(** What [pre_weights] and [post_weights] of a configured architecture hand
    back: descriptors from the architecture, or the list of strings stored
    in the override dictionary. *)
Inductive weights_or_names : Type :=
  | Weights (l : list WeightInfo.t)
  | Names (l : list string).

Module ConfiguredArchitectureInfo.

Record t : Type := mk {
  info : ArchitectureInfo.t;
  config : PretrainedConfig;
  overrides : option (gmap string (list string))
}.

Definition num_layers (self : t) : result pyval :=
  ArchitectureInfo.num_layers (info self) (config self).

Definition pre_weights (self : t) : result weights_or_names :=
  if negb (dict_truthy (overrides self))
  then ws ← ArchitectureInfo.pre_weights (info self) (config self); Ok (Weights ws)
  else
    names ← match overrides self with
            | Some d => dict_getitem d "pre_weights"
            | None => Err (TypeError "'NoneType' object is not subscriptable")
            end;
    Ok (Names names).

Definition post_weights (self : t) : result weights_or_names :=
  if negb (dict_truthy (overrides self))
  then ws ← ArchitectureInfo.post_weights (info self) (config self); Ok (Weights ws)
  else
    names ← match overrides self with
            | Some d => dict_getitem d "post_weights"
            | None => Err (TypeError "'NoneType' object is not subscriptable")
            end;
    Ok (Names names).

Definition layer_weights (self : t) (index : Z) : result (list WeightInfo.t) :=
  ArchitectureInfo.layer_weights (info self) index (config self).

Definition all_weights (self : t) : result (list WeightInfo.t) :=
  ArchitectureInfo.all_weights (info self) (config self).

Definition update_overrides (self : t) (overrides : gmap string (list string)) : t :=
  mk (info self) (config self) (Some overrides).

End ConfiguredArchitectureInfo.

(** ** Loading and resolving architectures *)

(** The second component of [_load_all_architectures]: the index from
    architecture name to the definitions that declare it, built over the
    definitions parsed from the bundled [.json] resources. *)
Definition name_to_arch (architectures : list JsonArchitectureInfo)
  : gmap string (list JsonArchitectureInfo) :=
  fold_left
    (fun name_to_arch arch_info =>
       fold_left
         (fun name_to_arch name =>
            <[name := default [] (name_to_arch !! name) ++ [arch_info]]> name_to_arch)
         (JSONArchitectureDefinition.architectures (definition arch_info))
         name_to_arch)
    architectures ∅.

Definition _load_all_architectures (architectures : list JsonArchitectureInfo)
  : list JsonArchitectureInfo * gmap string (list JsonArchitectureInfo) :=
  (architectures, name_to_arch architectures).

(** The implementations the resolver can return. *)
Inductive architecture : Type :=
  | JsonArch (j : JsonArchitectureInfo)
  | MixtralArch (m : MixtralTensorNames).

Definition as_info (MISTRAL_INFO : JsonArchitectureInfo) (a : architecture) : ArchitectureInfo.t :=
  match a with
  | JsonArch j => of_json j
  | MixtralArch m => of_mixtral MISTRAL_INFO m
  end.

(** [len(v)] *)
Definition py_len (v : pyval) : result nat :=
  match v with
  | PyList l => Ok (length l)
  | PyStr s => Ok (String.length s)
  | PyNone => Err (TypeError "object of type 'NoneType' has no len()")
  | PyInt _ => Err (TypeError "object of type 'int' has no len()")
  end.

(** [v[0]] *)
Definition py_first (v : pyval) : result pyval :=
  match v with
  | PyList (x :: _) => Ok x
  | PyList [] => Err (IndexError "list index out of range")
  | PyStr (String c _) => Ok (PyStr (String c EmptyString))
  | PyStr EmptyString => Err (IndexError "string index out of range")
  | PyNone => Err (TypeError "'NoneType' object is not subscriptable")
  | PyInt _ => Err (TypeError "'int' object is not subscriptable")
  end.

(** [s == v] for a string [s]. *)
Definition py_eq_str (s : string) (v : pyval) : bool :=
  match v with
  | PyStr s' => String.eqb s s'
  | _ => false
  end.

(** Whether a definition expects the model type a configuration declares. *)
Definition expects (model_type : pyval) (c : JsonArchitectureInfo) : bool :=
  py_eq_str (JSONArchitectureDefinition.expected_model_type (definition c)) model_type.

Section Resolver.

(** [NAME_TO_ARCH], the module-level index. *)
Variable NAME_TO_ARCH : gmap string (list JsonArchitectureInfo).

(** The loop over [candidates] of [_load_architecture_info]. *)
Fixpoint select_by_model_type (candidates : list JsonArchitectureInfo)
    (config : PretrainedConfig) : result (option JsonArchitectureInfo) :=
  match candidates with
  | [] => Ok None
  | c :: candidates' =>
      model_type ← getattr config (Some "model_type");
      if expects model_type c
      then Ok (Some c)
      else select_by_model_type candidates' config
  end.

(** [_load_architecture_info] *)
Definition _load_architecture_info (config : PretrainedConfig) : result architecture :=
  architectures ← getattr config (Some "architectures");
  n ← py_len architectures;
  if negb (Nat.eqb n 1) then Err (RuntimeError MoreThanOneArchitecture)
  else
    arch_name ← py_first architectures;
    if py_eq_str Mixtral.ARCHITECTURE_NAME arch_name
    then m ← Mixtral.from_config config; Ok (MixtralArch m)
    else
      match arch_name with
      | PyList _ => Err (TypeError "unhashable type: 'list'")
      | PyNone | PyInt _ => Err (RuntimeError (UnsupportedArchitecture arch_name))
      | PyStr name =>
          match NAME_TO_ARCH !! name with
          | None => Err (RuntimeError (UnsupportedArchitecture arch_name))
          | Some candidates =>
              match candidates with
              | [c] => Ok (JsonArch c)
              | _ =>
                  found ← select_by_model_type candidates config;
                  match found with
                  | Some c => Ok (JsonArch c)
                  | None =>
                      model_type ← getattr config (Some "model_type");
                      Err (RuntimeError (UnsupportedModelType model_type arch_name))
                  end
              end
          end
      end.

End Resolver.

(** ** The mapping table *)

Module MappingInfo.
Record t : Type := mk {
  start_architectures : list string;
  destination_architectures : list string;
  pre_weights_mapping : gmap string (list string);
  post_weights_mapping : gmap string (list string)
}.

(** [mapping[key]] on a [MappingInfo].  The class is a pydantic model and
    defines no [__getitem__]: subscripting it raises. *)
Definition getitem (mapping : t) (key : string) : result (gmap string (list string)) :=
  Err (TypeError "'MappingInfo' object is not subscriptable").
End MappingInfo.

(** An entry of the table: the dictionary with keys ["pre_weights"] and
    ["post_weights"]. *)
Abbreviation mapping_entry := (gmap string (list string)).

(** The body of the loop over [destination_architectures]. *)
Definition add_destination (mapping : MappingInfo.t) (start_architecture : string)
    (mappings : gmap string (gmap string mapping_entry)) (destination_architecture : string)
  : result (gmap string (gmap string mapping_entry)) :=
  let row := default ∅ (mappings !! start_architecture) in
  match row !! destination_architecture with
  | Some _ => Ok mappings
  | None =>
      pre ← MappingInfo.getitem mapping "pre_weights";
      pre_weights ← dict_getitem pre "destination";
      post ← MappingInfo.getitem mapping "post_weights";
      post_weights ← dict_getitem post "destination";
      Ok (<[start_architecture :=
              <[destination_architecture :=
                  <["post_weights" := post_weights]> (<["pre_weights" := pre_weights]> ∅)]> row]>
            mappings)
  end.

(** The body of the loop over [start_architectures]. *)
Definition add_start (mapping : MappingInfo.t)
    (mappings : gmap string (gmap string mapping_entry)) (start_architecture : string)
  : result (gmap string (gmap string mapping_entry)) :=
  let mappings :=
    match mappings !! start_architecture with
    | Some _ => mappings
    | None => <[start_architecture := ∅]> mappings
    end in
  for_each (add_destination mapping start_architecture)
    (MappingInfo.destination_architectures mapping) mappings.

(** [_load_all_mappings], over the mappings parsed from the bundled [.json]
    resources. *)
Definition _load_all_mappings (resources : list MappingInfo.t)
  : result (gmap string (gmap string mapping_entry)) :=
  for_each
    (fun mappings mapping =>
       for_each (add_start mapping) (MappingInfo.start_architectures mapping) mappings)
    resources ∅.

(** No row of the table holds a destination. *)
Definition rows_empty (mappings : gmap string (gmap string mapping_entry)) : Prop :=
  forall src row, mappings !! src = Some row -> row = ∅.

(** ** Procedural spaces *)

(** [o or []] for an optional list. *)
Definition or_empty {A} (o : option (list A)) : list A :=
  match o with
  | Some l => l
  | None => []
  end.

(** Truth value of an optional list and of an optional string. *)
Definition list_truthy {A} (o : option (list A)) : bool :=
  match o with
  | Some (_ :: _) => true
  | _ => false
  end.

Definition str_truthy (o : option string) : bool :=
  match o with
  | Some (String _ _) => true
  | _ => false
  end.

Module JsonSpaces.

(** The body of both loops: [res.append(self._substitute(s, ...))]. *)
Definition append_space (self : JsonArchitectureInfo) (config : PretrainedConfig)
    (layer_idx : option Z) (res : list ProceduralSpaceInfo.t) (s : ProceduralSpaceInfo.t)
  : result (list ProceduralSpaceInfo.t) :=
  s' ← Json._substitute self s config layer_idx;
  Ok (res ++ [s']).

(** [JsonArchitectureInfo.procedural_spaces] *)
Definition procedural_spaces (self : JsonArchitectureInfo) (config : PretrainedConfig)
  : result (list ProceduralSpaceInfo.t) :=
  res ← for_each (append_space self config None)
          (or_empty (JSONArchitectureDefinition.procedural_spaces (definition self))) [];
  num_layers ← Json.num_layers self config;
  indices ← py_range num_layers;
  for_each
    (fun res idx =>
       for_each (append_space self config (Some idx))
         (or_empty (lt_procedural_spaces
                      (JSONArchitectureDefinition.layer_templates (definition self))))
         res)
    indices res.

(** [JsonArchitectureInfo.has_defined_spaces] *)
Definition has_defined_spaces (self : JsonArchitectureInfo) : bool :=
  let d := definition self in
  if (list_truthy (JSONArchitectureDefinition.procedural_spaces d)
      || list_truthy (lt_procedural_spaces (JSONArchitectureDefinition.layer_templates d)))%bool
  then true
  else
    existsb
      (fun wi => (str_truthy (WeightInfo.input_space wi)
                  || str_truthy (WeightInfo.output_space wi))%bool)
      (lt_weights (JSONArchitectureDefinition.layer_templates d)
       ++ JSONArchitectureDefinition.pre_weights d
       ++ JSONArchitectureDefinition.post_weights d).

End JsonSpaces.

(** ** Model cards ([card.py]) *)

(** What the card functions read of a [ModelReference]. *)
Record ModelReference : Type := {
  path : string;
  lora_path : option string
}.

(** [s.count(c)] for a one-character string [c]. *)
Fixpoint count_char (c : ascii) (s : string) : nat :=
  match s with
  | EmptyString => O
  | String c' s' => if Ascii.eqb c' c then S (count_char c s') else count_char c s'
  end.

(** [method_md] *)
Definition method_md (merge_method : string) : string :=
  let methods : gmap string string :=
    <["dare_linear" := "linear [DARE](https://arxiv.org/abs/2311.03099)"]>
    (<["dare_ties" :=
        "[DARE](https://arxiv.org/abs/2311.03099) [TIES](https://arxiv.org/abs/2306.01708)"]>
    (<["task_arithmetic" := "[task arithmetic](https://arxiv.org/abs/2212.04089)"]>
    (<["slerp" := "SLERP"]>
    (<["ties" := "[TIES](https://arxiv.org/abs/2306.01708)"]>
    (<["linear" := "[linear](https://arxiv.org/abs/2203.05482)"]> ∅))))) in
  default merge_method (methods !! merge_method).

Section Card.

(** [os.path.exists] and [huggingface_hub.repo_exists(_, repo_type="model")]:
    the state of the file system and of the hub.  The first never raises on
    a string; the second can (an invalid repository id, a network
    failure). *)
Variable path_exists : string -> bool.
Variable repo_exists : string -> result bool.

(** [is_hf] *)
Definition is_hf (path : string) : result bool :=
  match path with
  | EmptyString => Err (IndexError "string index out of range")
  | String c _ =>
      if ((Ascii.eqb c "/" || Ascii.eqb c "~") || (1 <? count_char "/" path)%nat)%bool
      then Ok false
      else if negb (path_exists path) then Ok true
      else repo_exists path
  end.

(** One round of the loop of [extract_hf_paths], appending what it yields. *)
Definition extract_one (yielded : list string) (model : ModelReference) : result (list string) :=
  h ← is_hf (path model);
  let yielded := if (h : bool) then yielded ++ [path model] else yielded in
  if str_truthy (lora_path model)
  then
    let lora := default EmptyString (lora_path model) in
    hl ← is_hf lora;
    Ok (if (hl : bool) then yielded ++ [lora] else yielded)
  else Ok yielded.

(** [list(extract_hf_paths(models))] *)
Definition extract_hf_paths (models : list ModelReference) : result (list string) :=
  for_each extract_one models [].

(** [maybe_link_hf] *)
Definition maybe_link_hf (path : string) : result string :=
  h ← is_hf path;
  Ok (if (h : bool)
      then "[" +:+ path +:+ "](https://huggingface.co/" +:+ path +:+ ")"
      else path).

(** [modelref_md] *)
Definition modelref_md (model : ModelReference) : result string :=
  text ← maybe_link_hf (path model);
  if str_truthy (lora_path model)
  then
    link ← maybe_link_hf (default EmptyString (lora_path model));
    Ok (text +:+ " + " +:+ link)
  else Ok text.

End Card.

(** A model reference whose LoRA path is the empty string, with the LoRA
    path taken away. *)
Definition without_empty_lora (model : ModelReference) : ModelReference :=
  match lora_path model with
  | Some EmptyString => {| path := path model; lora_path := None |}
  | _ => model
  end.

(** ** Identifiers and field-wise substitution *)

(** Whether [idpattern] matches the whole of [id]. *)
Definition is_identifier (id : string) : bool :=
  match Template.match_id id with
  | Some n => Nat.eqb n (String.length id)
  | None => false
  end.

(** What the loop of [_substitute] does to one string value. *)
Definition substitute_str (table : gmap string Z) (s : string) : result string :=
  if contains "{" s then Template.substitute s table else Ok s.

(** ... and to a field that holds an optional string. *)
Definition substitute_optional (table : gmap string Z) (o : option (option string))
  : result (option (option string)) :=
  match o with
  | Some (Some s) => s' ← substitute_str table s; Ok (Some (Some s'))
  | _ => Ok o
  end.

(** ** The definitions that declare a name *)

(** The loaded definitions that declare [name], in load order, once for
    each time they list it. *)
Definition declaring (name : string) (architectures : list JsonArchitectureInfo)
  : list JsonArchitectureInfo :=
  flat_map
    (fun arch_info =>
       map (fun _ => arch_info)
         (List.filter (String.eqb name)
            (JSONArchitectureDefinition.architectures (definition arch_info))))
    architectures.

(** A dictionary entry after appending [l] to it, the entry being created
    when absent. *)
Definition extend {A} (o : option (list A)) (l : list A) : option (list A) :=
  match l with
  | [] => o
  | _ => Some (default [] o ++ l)
  end.

(** ** Placeholder-free descriptors *)

(** A placeholder is written with the delimiter and braces, as in
    [${layer_index}]: a string that lacks the delimiter, or lacks an opening
    brace, holds none. *)
Definition placeholder_free (s : string) : bool :=
  negb (contains "$" s && contains "{" s).

Definition optional_placeholder_free (o : option string) : bool :=
  match o with
  | Some s => placeholder_free s
  | None => true
  end.

(** The string fields of a [WeightInfo] are [name], [input_space] and
    [output_space]; those of a [ProceduralSpaceInfo] are [name] and the
    constant [type]. *)
Definition weight_placeholder_free (w : WeightInfo.t) : bool :=
  (placeholder_free (WeightInfo.name w)
   && optional_placeholder_free (WeightInfo.input_space w)
   && optional_placeholder_free (WeightInfo.output_space w))%bool.

Definition space_placeholder_free (s : ProceduralSpaceInfo.t) : bool :=
  placeholder_free (ProceduralSpaceInfo.name s).

(** The entries of a dumped [WeightInfo] after its name. *)
Definition dump_rest (w : WeightInfo.t) : obj_dict := tail (WeightInfo.dump w).

(** [w] with its name replaced. *)
Definition with_name (w : WeightInfo.t) (n : string) : WeightInfo.t :=
  WeightInfo.mk n (WeightInfo.is_embed_field w) (WeightInfo.is_lm_head_field w)
    (WeightInfo.input_space_field w) (WeightInfo.output_space_field w)
    (WeightInfo.optional_field w) (WeightInfo.aliases_field w).

(** ** Arithmetic placeholders in a string field *)

(** The three placeholders with arithmetic, and the value each stands for
    with layer count [N]; the two on [layer_index] exist only in a
    substitution that is given a layer index. *)
Inductive arithmetic_placeholder (N : Z) : option Z -> string -> Z -> Prop :=
  | layer_index_plus_one (i : Z) :
      arithmetic_placeholder N (Some i) "${layer_index+1}" (i + 1)
  | layer_index_minus_one (i : Z) :
      arithmetic_placeholder N (Some i) "${layer_index-1}" (i - 1)
  | num_layers_minus_one (layer_idx : option Z) :
      arithmetic_placeholder N layer_idx "${num_layers-1}" (N - 1).

(** A string field and what substitution is to make of it: a
    placeholder-free string is kept, and a string that mentions one of the
    placeholders between two pieces of text without delimiter has the
    decimal rendering of the value in its place. *)
Inductive field_substituted (N : Z) (layer_idx : option Z) : string -> string -> Prop :=
  | field_untouched (s : string) :
      placeholder_free s = true -> field_substituted N layer_idx s s
  | field_rewritten (pre ph post : string) (v : Z) :
      contains "$" pre = false ->
      contains "$" post = false ->
      arithmetic_placeholder N layer_idx ph v ->
      field_substituted N layer_idx (pre +:+ ph +:+ post) (pre +:+ str_of_int v +:+ post).

(** The same for a field that holds an optional string: unset and null
    fields stay as they are. *)
Definition optional_substituted (N : Z) (layer_idx : option Z)
    (o o' : option (option string)) : Prop :=
  match o, o' with
  | Some (Some s), Some (Some s') => field_substituted N layer_idx s s'
  | _, _ => o = o'
  end.

(** A weight descriptor and its substituted form, field by field. *)
Definition weight_substituted (N : Z) (layer_idx : option Z) (w w' : WeightInfo.t) : Prop :=
  field_substituted N layer_idx (WeightInfo.name w) (WeightInfo.name w')
  /\ optional_substituted N layer_idx
       (WeightInfo.input_space_field w) (WeightInfo.input_space_field w')
  /\ optional_substituted N layer_idx
       (WeightInfo.output_space_field w) (WeightInfo.output_space_field w')
  /\ WeightInfo.is_embed_field w' = WeightInfo.is_embed_field w
  /\ WeightInfo.is_lm_head_field w' = WeightInfo.is_lm_head_field w
  /\ WeightInfo.optional_field w' = WeightInfo.optional_field w
  /\ WeightInfo.aliases_field w' = WeightInfo.aliases_field w.

(** A procedural space and its substituted form. *)
Definition space_substituted (N : Z) (layer_idx : option Z)
    (s s' : ProceduralSpaceInfo.t) : Prop :=
  field_substituted N layer_idx (ProceduralSpaceInfo.name s) (ProceduralSpaceInfo.name s')
  /\ ProceduralSpaceInfo.inputs s' = ProceduralSpaceInfo.inputs s.

(** ** The tensors of a mixture-of-experts layer *)

(** The name of sub-tensor [param] of expert [expert_idx] in layer
    [index], and the name of the routing gate of the layer. *)
Definition expert_tensor (index expert_idx : Z) (param : string) : string :=
  ("model.layers." +:+ str_of_int index) +:+ ".block_sparse_moe.experts."
    +:+ str_of_int expert_idx +:+ "." +:+ param +:+ ".weight".

Definition gate_tensor (index : Z) : string :=
  ("model.layers." +:+ str_of_int index) +:+ ".block_sparse_moe.gate.weight".

Definition expert_group (index expert_idx : Z) : list string :=
  [expert_tensor index expert_idx "w1";
   expert_tensor index expert_idx "w2";
   expert_tensor index expert_idx "w3"].

(** ** Sample inputs *)

Definition embed_tokens : WeightInfo.t :=
  WeightInfo.mk "model.embed_tokens.weight" (Some true) None None None None None.

Definition q_proj_template : WeightInfo.t :=
  WeightInfo.mk "model.layers.${layer_index}.self_attn.q_proj.weight"
    None None (Some (Some "h_${layer_index}")) None None None.

Definition final_norm : WeightInfo.t := WeightInfo.of_name "model.norm.weight".

Definition lm_head : WeightInfo.t :=
  WeightInfo.mk "lm_head.weight" None (Some true) None None (Some true)
    (Some (Some ["model.lm_head.weight"])).

(** A definition in the shape of the bundled ones. *)
Definition sample_definition (model_type : string) (key : option string)
  : JSONArchitectureDefinition.t :=
  JSONArchitectureDefinition.mk model_type ["LlamaForCausalLM"]
    [embed_tokens]
    {| lt_weights := [q_proj_template]; lt_procedural_spaces := None |}
    [final_norm; lm_head]
    None key.

Definition sample_info : JsonArchitectureInfo :=
  {| definition := sample_definition "llama" (Some "num_hidden_layers") |}.

(** The same definition without [num_layers_config_key]. *)
Definition sample_info_no_key : JsonArchitectureInfo :=
  {| definition := sample_definition "llama" None |}.

Definition sample_config : PretrainedConfig :=
  <["num_hidden_layers" := PyInt 2]>
    (<["model_type" := PyStr "llama"]>
       (<["architectures" := PyList [PyStr "LlamaForCausalLM"]]> ∅)).

(** Two definitions that declare the same architecture name, and a third
    model type that neither expects. *)
Definition shared_definition (name model_type : string) (pre : list WeightInfo.t)
  : JsonArchitectureInfo :=
  {| definition :=
       JSONArchitectureDefinition.mk model_type [name] pre
         {| lt_weights := []; lt_procedural_spaces := None |} [] None
         (Some "num_hidden_layers") |}.

Definition config_of (name model_type : string) : PretrainedConfig :=
  <["num_local_experts" := PyInt 8]>
    (<["num_hidden_layers" := PyInt 2]>
       (<["model_type" := PyStr model_type]>
          (<["architectures" := PyList [PyStr name]]> ∅))).

Definition def_a : JsonArchitectureInfo := shared_definition "X" "a" [embed_tokens].
Definition def_b : JsonArchitectureInfo := shared_definition "X" "b" [final_norm].

(** A second definition for name [X] and model type [a]. *)
Definition def_a_again : JsonArchitectureInfo := shared_definition "X" "a" [final_norm].

(** Two definitions that declare the name of the hardcoded plugin. *)
Definition mixtral_a : JsonArchitectureInfo :=
  shared_definition "MixtralForCausalLM" "a" [embed_tokens].
Definition mixtral_b : JsonArchitectureInfo :=
  shared_definition "MixtralForCausalLM" "b" [final_norm].

(** A definition with three pre-weights, configured with an override that
    lists one of them. *)
Definition three_pre_weights : JsonArchitectureInfo :=
  shared_definition "X" "a"
    [embed_tokens; WeightInfo.of_name "model.pos.weight"; WeightInfo.of_name "model.ln.weight"].

Definition one_override : gmap string (list string) :=
  <["post_weights" := []]> (<["pre_weights" := ["model.embed_tokens.weight"]]> ∅).

Definition overridden : ConfiguredArchitectureInfo.t :=
  ConfiguredArchitectureInfo.mk (of_json three_pre_weights) (config_of "X" "a")
    (Some one_override).

(** A mapping resource from one architecture to another. *)
Definition sample_mapping : MappingInfo.t :=
  MappingInfo.mk ["LlamaForCausalLM"] ["MistralForCausalLM"]
    (<["destination" := ["model.embed_tokens.weight"]]> ∅)
    (<["destination" := ["model.norm.weight"; "lm_head.weight"]]> ∅).

(** An implementation of [ArchitectureInfo] that lists its weights
    directly: one embedding, one tensor per layer, a norm and a head. *)
Definition listed_info : ArchitectureInfo.t :=
  ArchitectureInfo.mk
    (fun _ => Ok [embed_tokens])
    (fun _ => Ok [final_norm; lm_head])
    (fun index _ => Ok [WeightInfo.of_name ("model.layers." +:+ str_of_int index +:+ ".w")])
    true (Some "num_hidden_layers").

(** A mapping resource that names no destination architecture. *)
Definition mapping_without_destination : MappingInfo.t :=
  MappingInfo.mk ["LlamaForCausalLM"] [] ∅ ∅.

(** Whether a mapping resource names no start or no destination. *)
Definition degenerate (mapping : MappingInfo.t) : Prop :=
  MappingInfo.start_architectures mapping = []
  \/ MappingInfo.destination_architectures mapping = [].

(** A definition with one global space and one space per layer. *)
Definition spaces_info : JsonArchitectureInfo :=
  {| definition :=
       JSONArchitectureDefinition.mk "llama" ["LlamaForCausalLM"] [] 
         {| lt_weights := [];
            lt_procedural_spaces :=
              Some [ProceduralSpaceInfo.mk "residual_${layer_index}" ["h_${layer_index}"]] |}
         [] (Some [ProceduralSpaceInfo.mk "residual_in" ["embed"]])
         (Some "num_hidden_layers") |}.

(** * Properties *)

#[local] Arguments String.append : simpl nomatch.

(** ** The error monad *)

Lemma bind_Ok {A B} (m : result A) (f : A -> result B) (b : B) :
  (m ≫= f) = Ok b -> exists a, m = Ok a /\ f a = Ok b.
Proof. destruct m as [a|e]; simpl; [eauto | discriminate]. Qed.

Lemma comprehension_id {A} (f : A -> result A) (l : list A) :
  Forall (fun x => f x = Ok x) l -> comprehension f l = Ok l.
Proof.
  induction 1 as [|x l Hx _ IH]; simpl; [reflexivity|].
  rewrite Hx; simpl. rewrite IH; reflexivity.
Qed.

Lemma comprehension_length {A B} (f : A -> result B) (l : list A) (r : list B) :
  comprehension f l = Ok r -> length r = length l.
Proof.
  revert r; induction l as [|x l IH]; simpl; intros r H.
  - injection H as <-; reflexivity.
  - apply bind_Ok in H as (y & _ & H). apply bind_Ok in H as (ys & Hys & H).
    injection H as <-. simpl. f_equal. apply IH, Hys.
Qed.

(** ** Template substitution *)

Example substitute_layer :
  Template.substitute "model.layers.${layer_index}.w$$.${num_layers-1}"
    (<["layer_index" := 3]> (<["num_layers-1" := 11]> ∅))
  = Ok "model.layers.3.w$.11".
Proof. vm_compute. reflexivity. Qed.

Example substitute_missing :
  Template.substitute "a.${unknown}" (<["layer_index" := 3]> ∅) = Err (KeyError "unknown").
Proof. vm_compute. reflexivity. Qed.

Example substitute_invalid :
  Template.substitute "a.${layer_index+2}" (<["layer_index" := 3]> ∅)
  = Err (ValueError "Invalid placeholder in string").
Proof. vm_compute. reflexivity. Qed.

Example substitute_named :
  Template.substitute "a.$layer_index-1{" (<["layer_index-1" := -1]> ∅) = Ok "a.-1{".
Proof. vm_compute. reflexivity. Qed.

Lemma append_assoc (a b c : string) : (a +:+ b) +:+ c = a +:+ (b +:+ c).
Proof. induction a as [|x a IH]; simpl; [reflexivity | rewrite IH; reflexivity]. Qed.

(** Text without the delimiter is copied. *)
Lemma sub_no_delimiter (mapping : gmap string Z) (s : string) :
  contains "$" s = false -> Template.sub mapping O s = Ok s.
Proof.
  induction s as [|c s IH]; simpl; [reflexivity|]. intros H.
  apply orb_false_iff in H as [Hc Hs].
  rewrite Hc, (IH Hs). reflexivity.
Qed.

(** Text without the delimiter in front of a template is copied in front of
    the substituted template. *)
Lemma sub_prefix (mapping : gmap string Z) (pre s : string) :
  contains "$" pre = false ->
  Template.sub mapping O (pre +:+ s) = (tail ← Template.sub mapping O s; Ok (pre +:+ tail)).
Proof.
  induction pre as [|c pre IH]; simpl; intros H.
  - destruct (Template.sub mapping O s); reflexivity.
  - apply orb_false_iff in H as [Hc Hs]. rewrite Hc, (IH Hs).
    destruct (Template.sub mapping O s); reflexivity.
Qed.

Lemma contains_append (c : ascii) (a b : string) :
  contains c (a +:+ b) = (contains c a || contains c b)%bool.
Proof.
  induction a as [|x a IH]; simpl; [reflexivity|].
  rewrite IH, orb_assoc. reflexivity.
Qed.

(** The six braced placeholders of the substitution table, each followed by
    arbitrary text. *)
Ltac braced_placeholder :=
  intros mapping v post Hv; unfold Template.substitute; simpl;
  rewrite Hv; simpl; destruct (Template.sub mapping O post); reflexivity.

Lemma sub_braced_layer_index_plus mapping v post :
  mapping !! "layer_index+1" = Some v ->
  Template.sub mapping O ("${layer_index+1}" +:+ post)
  = (tail ← Template.sub mapping O post; Ok (str_of_int v +:+ tail)).
Proof. revert mapping v post. braced_placeholder. Qed.

Lemma sub_braced_layer_index_minus mapping v post :
  mapping !! "layer_index-1" = Some v ->
  Template.sub mapping O ("${layer_index-1}" +:+ post)
  = (tail ← Template.sub mapping O post; Ok (str_of_int v +:+ tail)).
Proof. revert mapping v post. braced_placeholder. Qed.

Lemma sub_braced_num_layers_minus mapping v post :
  mapping !! "num_layers-1" = Some v ->
  Template.sub mapping O ("${num_layers-1}" +:+ post)
  = (tail ← Template.sub mapping O post; Ok (str_of_int v +:+ tail)).
Proof. revert mapping v post. braced_placeholder. Qed.

(** ** Dumping and validating *)

Lemma dump_name (w : WeightInfo.t) :
  WeightInfo.dump w = ("name", JStr (WeightInfo.name w)) :: dump_rest w.
Proof. reflexivity. Qed.

Lemma validate_renamed (w : WeightInfo.t) (n : string) :
  WeightInfo.validate (("name", JStr n) :: dump_rest w) = Ok (with_name w n).
Proof.
  destruct w as [n0 [e|] [h|] [[i|]|] [[o|]|] [p|] [[a|]|]]; reflexivity.
Qed.

(** Validation undoes dumping, set and unset fields alike. *)
Lemma validate_dump_weight (w : WeightInfo.t) :
  WeightInfo.validate (WeightInfo.dump w) = Ok w.
Proof. rewrite dump_name, validate_renamed. destruct w; reflexivity. Qed.

Lemma validate_dump_space (s : ProceduralSpaceInfo.t) :
  ProceduralSpaceInfo.validate (ProceduralSpaceInfo.dump s) = Ok s.
Proof. destruct s; reflexivity. Qed.

(** ** Substitution over a dumped model *)

Lemma substitute_entry_free (table : gmap string Z) (key : string) (s : string) :
  placeholder_free s = true ->
  Json.substitute_entry table (key, JStr s) = Ok (key, JStr s).
Proof.
  unfold placeholder_free, Json.substitute_entry. intros H.
  destruct (contains "{" s) eqn:Hb; [|reflexivity].
  rewrite andb_true_r in H. apply negb_true_iff in H.
  unfold Template.substitute. rewrite (sub_no_delimiter _ _ H). reflexivity.
Qed.

Lemma substitute_entry_not_str (table : gmap string Z) (key : string) (v : jval) :
  (forall s, v <> JStr s) -> Json.substitute_entry table (key, v) = Ok (key, v).
Proof. intros H. destruct v; try reflexivity. exfalso. eapply H; reflexivity. Qed.

Lemma dump_rest_free (table : gmap string Z) (w : WeightInfo.t) :
  optional_placeholder_free (WeightInfo.input_space w) = true ->
  optional_placeholder_free (WeightInfo.output_space w) = true ->
  comprehension (Json.substitute_entry table) (dump_rest w) = Ok (dump_rest w).
Proof.
  intros Hi Ho. apply comprehension_id.
  destruct w as [n0 [e|] [h|] [[i|]|] [[o|]|] [p|] [[a|]|]];
    unfold WeightInfo.input_space, WeightInfo.output_space in Hi, Ho; simpl in Hi, Ho;
    unfold dump_rest; simpl;
    repeat constructor;
    apply substitute_entry_free; assumption.
Qed.

(** Once the table is built, [_substitute] is the loop over the dumped
    model followed by validation. *)
Lemma substitute_with_table {T} `{BaseModel T} (self : JsonArchitectureInfo)
    (config : PretrainedConfig) (layer_idx : option Z) (num_layers : pyval)
    (table : gmap string Z) (item : T) :
  Json.num_layers self config = Ok num_layers ->
  Json.substitutions num_layers layer_idx = Ok table ->
  Json._substitute self item config layer_idx
  = (d ← comprehension (Json.substitute_entry table) (model_dump_exclude_unset item);
     model_validate d).
Proof. intros Hn Ht. unfold Json._substitute. rewrite Hn; simpl. rewrite Ht. reflexivity. Qed.

(** [_substitute] on a [WeightInfo] whose name entry is rewritten to [n] and
    whose space tags are placeholder-free. *)
Lemma substitute_weight_name (self : JsonArchitectureInfo) (config : PretrainedConfig)
    (layer_idx : option Z) (num_layers : pyval) (table : gmap string Z)
    (w : WeightInfo.t) (n : string) :
  Json.num_layers self config = Ok num_layers ->
  Json.substitutions num_layers layer_idx = Ok table ->
  Json.substitute_entry table ("name", JStr (WeightInfo.name w)) = Ok ("name", JStr n) ->
  optional_placeholder_free (WeightInfo.input_space w) = true ->
  optional_placeholder_free (WeightInfo.output_space w) = true ->
  Json._substitute self w config layer_idx = Ok (with_name w n).
Proof.
  intros Hn Ht Hname Hi Ho.
  rewrite (substitute_with_table _ _ _ _ _ _ Hn Ht).
  change (model_dump_exclude_unset w)
    with (("name", JStr (WeightInfo.name w)) :: dump_rest w).
  change (comprehension (Json.substitute_entry table)
            (("name", JStr (WeightInfo.name w)) :: dump_rest w))
    with (y ← Json.substitute_entry table ("name", JStr (WeightInfo.name w));
          ys ← comprehension (Json.substitute_entry table) (dump_rest w);
          Ok (y :: ys)).
  rewrite Hname; simpl. rewrite (dump_rest_free _ _ Hi Ho); simpl.
  apply validate_renamed.
Qed.

(** The name entry of a dumped descriptor that mentions one braced
    placeholder between two pieces of plain text. *)
Lemma substitute_entry_braced (table : gmap string Z) (pre ph post : string) (v : Z) :
  contains "$" pre = false ->
  contains "$" post = false ->
  contains "{" ph = true ->
  (forall rest, Template.sub table O (ph +:+ rest)
                = (tail ← Template.sub table O rest; Ok (str_of_int v +:+ tail))) ->
  Json.substitute_entry table ("name", JStr (pre +:+ ph +:+ post))
  = Ok ("name", JStr (pre +:+ str_of_int v +:+ post)).
Proof.
  intros Hpre Hpost Hph Hsub. unfold Json.substitute_entry.
  rewrite !contains_append, Hph, orb_true_r; simpl.
  unfold Template.substitute.
  rewrite (sub_prefix _ _ _ Hpre), Hsub, (sub_no_delimiter _ _ Hpost). reflexivity.
Qed.

(** ** Claims about template substitution *)

(** C8: once the substitution table is built, substituting a descriptor
    whose string fields are placeholder-free returns the descriptor itself,
    fields that were never set included; this holds for weight descriptors
    and for procedural-space descriptors. *)
Theorem substitute_placeholder_free
    (self : JsonArchitectureInfo) (config : PretrainedConfig) (layer_idx : option Z)
    (num_layers : pyval) (table : gmap string Z) :
  Json.num_layers self config = Ok num_layers ->
  Json.substitutions num_layers layer_idx = Ok table ->
  (forall w : WeightInfo.t,
      weight_placeholder_free w = true ->
      Json._substitute self w config layer_idx = Ok w)
  /\ (forall s : ProceduralSpaceInfo.t,
      space_placeholder_free s = true ->
      Json._substitute self s config layer_idx = Ok s).
Proof.
  intros Hn Ht. split.
  - intros w Hw. unfold weight_placeholder_free in Hw.
    apply andb_true_iff in Hw as [Hw Ho]. apply andb_true_iff in Hw as [Hname Hi].
    replace (Ok w) with (Ok (with_name w (WeightInfo.name w))) by (destruct w; reflexivity).
    apply (substitute_weight_name self config layer_idx num_layers table); try assumption.
    apply substitute_entry_free, Hname.
  - intros s Hs. rewrite (substitute_with_table _ _ _ _ _ _ Hn Ht).
    change (model_dump_exclude_unset s) with (ProceduralSpaceInfo.dump s).
    rewrite comprehension_id.
    + apply validate_dump_space.
    + unfold ProceduralSpaceInfo.dump. repeat constructor.
      apply substitute_entry_free, Hs.
Qed.

Lemma substitute_placeholder_free_witness :
  Json._substitute sample_info lm_head sample_config (Some 0) = Ok lm_head.
Proof.
  refine (proj1 (substitute_placeholder_free sample_info sample_config (Some 0)
                   (PyInt 2) _ _ _) lm_head _); reflexivity.
Defined.

(** ** Weight enumeration *)

Lemma for_each_extend {A B} (f : A -> result (list B)) (g : A -> list B)
    (l : list A) (acc : list B) :
  Forall (fun x => f x = Ok (g x)) l ->
  for_each (fun res x => lw ← f x; Ok (res ++ lw)) l acc = Ok (acc ++ flat_map g l).
Proof.
  intros H. revert acc. induction H as [|x l Hx _ IH]; intros acc; simpl.
  - rewrite app_nil_r. reflexivity.
  - rewrite Hx; simpl. rewrite IH, <- app_assoc. reflexivity.
Qed.

(** What [ArchitectureInfo.all_weights] computes over an implementation whose
    three methods return: pre-weights, then the layers in ascending index
    order, then post-weights. *)
Lemma all_weights_order (info : ArchitectureInfo.t) (config : PretrainedConfig)
    (N : Z) (pre post : list WeightInfo.t) (layer : Z -> list WeightInfo.t) :
  ArchitectureInfo.num_layers info config = Ok (PyInt N) ->
  ArchitectureInfo.pre_weights info config = Ok pre ->
  (forall i, 0 <= i < N -> ArchitectureInfo.layer_weights info i config = Ok (layer i)) ->
  ArchitectureInfo.post_weights info config = Ok post ->
  ArchitectureInfo.all_weights info config = Ok (pre ++ flat_map layer (range N) ++ post).
Proof.
  intros Hn Hpre Hlayer Hpost. unfold ArchitectureInfo.all_weights.
  rewrite Hn; simpl. rewrite Hpre; simpl.
  rewrite (for_each_extend _ layer).
  - simpl. rewrite Hpost; simpl. rewrite <- app_assoc. reflexivity.
  - apply List.Forall_forall. intros i Hi. apply Hlayer.
    unfold range in Hi. apply in_map_iff in Hi as (k & <- & Hk).
    apply in_seq in Hk. lia.
Qed.

(** Reading [self.overrides] ends [JsonArchitectureInfo.pre_weights] and
    [post_weights] with an exception, whatever came before. *)
Lemma json_pre_weights_raises (j : JsonArchitectureInfo) (config : PretrainedConfig) :
  exists e, Json.pre_weights j config = Err e.
Proof.
  unfold Json.pre_weights.
  destruct (comprehension _ _) as [ws|e]; simpl; eauto.
Qed.

Lemma json_post_weights_raises (j : JsonArchitectureInfo) (config : PretrainedConfig) :
  exists e, Json.post_weights j config = Err e.
Proof.
  unfold Json.post_weights.
  destruct (comprehension _ _) as [ws|e]; simpl; eauto.
Qed.

Lemma all_weights_pre_raises (info : ArchitectureInfo.t) (config : PretrainedConfig) (e : exn) :
  ArchitectureInfo.pre_weights info config = Err e ->
  exists e', ArchitectureInfo.all_weights info config = Err e'.
Proof.
  intros H. unfold ArchitectureInfo.all_weights.
  destruct (ArchitectureInfo.num_layers info config); simpl; [|eauto].
  rewrite H; simpl. eauto.
Qed.

(** C1: on a declarative definition the enumeration does not return the
    [P + N*L + Q] descriptors: [pre_weights] reads the attribute [overrides],
    which a [JsonArchitectureInfo] does not have, so [all_weights] raises for
    every definition and configuration; on the sample definition (one
    pre-weight, one layer template, two post-weights) with two layers it
    raises [AttributeError] instead of returning five descriptors. *)
Theorem all_weights_json_raises :
  (forall (j : JsonArchitectureInfo) (config : PretrainedConfig),
      exists e, ArchitectureInfo.all_weights (of_json j) config = Err e)
  /\ ArchitectureInfo.num_layers (of_json sample_info) sample_config = Ok (PyInt 2)
  /\ ArchitectureInfo.all_weights (of_json sample_info) sample_config
     = Err (AttributeError "overrides").
Proof.
  split; [|split].
  - intros j config. destruct (json_pre_weights_raises j config) as [e He].
    apply (all_weights_pre_raises (of_json j) config e). exact He.
  - reflexivity.
  - vm_compute. reflexivity.
Qed.

(** C9: over any implementation of [ArchitectureInfo] whose layer-count key
    is [key], [all_weights] on a configuration without the attribute [key]
    raises [AttributeError] for that attribute, and on a configuration
    whose attribute [key] is not an integer it raises as well; in neither
    case does it return a list. *)
Theorem all_weights_without_layer_count
    (info : ArchitectureInfo.t) (config : PretrainedConfig) (key : string) :
  ArchitectureInfo.num_layers_config_key info = Some key ->
  (config !! key = None ->
   ArchitectureInfo.all_weights info config = Err (AttributeError key))
  /\ (forall v, config !! key = Some v -> (forall n, v <> PyInt n) ->
      exists e, ArchitectureInfo.all_weights info config = Err e).
Proof.
  intros Hkey. unfold ArchitectureInfo.all_weights, ArchitectureInfo.num_layers, getattr.
  rewrite Hkey. split.
  - intros Hmiss. rewrite Hmiss. reflexivity.
  - intros v Hv Hint. rewrite Hv; simpl.
    destruct (ArchitectureInfo.pre_weights info config) as [pre|e]; simpl; [|eauto].
    destruct v as [| n | s | l]; simpl; eauto.
    exfalso. apply (Hint n). reflexivity.
Qed.

Lemma all_weights_without_layer_count_witness :
  ArchitectureInfo.all_weights (of_json sample_info)
    (<["model_type" := PyStr "llama"]> ∅)
  = Err (AttributeError "num_hidden_layers").
Proof.
  refine (proj1 (all_weights_without_layer_count (of_json sample_info)
                   (<["model_type" := PyStr "llama"]> ∅) "num_hidden_layers" _) _);
    reflexivity.
Defined.

(** ** The layer-count key *)

(** A definition that names its key has that attribute read. *)
Lemma num_layers_override_key (j : JsonArchitectureInfo) (config : PretrainedConfig)
    (key : string) :
  JSONArchitectureDefinition.num_layers_config_key (definition j) = Some key ->
  ArchitectureInfo.num_layers (of_json j) config = getattr config (Some key).
Proof. intros H. unfold ArchitectureInfo.num_layers. simpl. unfold Json.num_layers_config_key. rewrite H. reflexivity. Qed.

(** A definition that names no key has no attribute read at all. *)
Lemma num_layers_no_key (j : JsonArchitectureInfo) (config : PretrainedConfig) :
  JSONArchitectureDefinition.num_layers_config_key (definition j) = None ->
  ArchitectureInfo.num_layers (of_json j) config
  = Err (TypeError "attribute name must be string, not 'NoneType'").
Proof. intros H. unfold ArchitectureInfo.num_layers. simpl. unfold Json.num_layers_config_key. rewrite H. reflexivity. Qed.

(** C5: the sample definition without [num_layers_config_key], bound to a
    configuration that holds two layers under the conventional key
    [num_hidden_layers], does not read that attribute: the overriding method
    returns the unset field, and [num_layers] raises [TypeError]; the same
    definition with the key set reads 2. *)
Theorem num_layers_config_key_unset :
  ArchitectureInfo.default_num_layers_config_key = "num_hidden_layers"
  /\ sample_config !! ArchitectureInfo.default_num_layers_config_key = Some (PyInt 2)
  /\ ArchitectureInfo.num_layers_config_key (of_json sample_info_no_key) = None
  /\ ArchitectureInfo.num_layers (of_json sample_info_no_key) sample_config
     = Err (TypeError "attribute name must be string, not 'NoneType'")
  /\ ArchitectureInfo.num_layers (of_json sample_info) sample_config = Ok (PyInt 2).
Proof. repeat split; reflexivity. Qed.

(** ** Overrides of a configured architecture *)

(** With a non-empty override dictionary, [pre_weights] and [post_weights]
    hand back the stored lists of names. *)
Lemma configured_pre_weights_names (self : ConfiguredArchitectureInfo.t)
    (d : gmap string (list string)) (names : list string) :
  ConfiguredArchitectureInfo.overrides self = Some d ->
  d !! "pre_weights" = Some names ->
  ConfiguredArchitectureInfo.pre_weights self = Ok (Names names).
Proof.
  intros Ho Hd. unfold ConfiguredArchitectureInfo.pre_weights, dict_truthy.
  rewrite Ho. destruct (Nat.eqb (size d) 0) eqn:Hsz; simpl.
  - apply Nat.eqb_eq in Hsz. apply map_size_empty_iff in Hsz. subst d.
    rewrite lookup_empty in Hd. discriminate.
  - unfold dict_getitem. rewrite Hd. reflexivity.
Qed.

Lemma configured_post_weights_names (self : ConfiguredArchitectureInfo.t)
    (d : gmap string (list string)) (names : list string) :
  ConfiguredArchitectureInfo.overrides self = Some d ->
  d !! "post_weights" = Some names ->
  ConfiguredArchitectureInfo.post_weights self = Ok (Names names).
Proof.
  intros Ho Hd. unfold ConfiguredArchitectureInfo.post_weights, dict_truthy.
  rewrite Ho. destruct (Nat.eqb (size d) 0) eqn:Hsz; simpl.
  - apply Nat.eqb_eq in Hsz. apply map_size_empty_iff in Hsz. subst d.
    rewrite lookup_empty in Hd. discriminate.
  - unfold dict_getitem. rewrite Hd. reflexivity.
Qed.

(** C2: a definition with three pre-weights, configured with an override
    that lists the name of the first, does not return that descriptor:
    [pre_weights] returns the override's list of strings itself, so the
    embedding flag of the descriptor is not part of the result; an override
    naming a tensor the definition does not have is returned the same way. *)
Theorem configured_pre_weights_override :
  length (JSONArchitectureDefinition.pre_weights (definition three_pre_weights)) = 3%nat
  /\ ConfiguredArchitectureInfo.overrides overridden = Some one_override
  /\ ConfiguredArchitectureInfo.pre_weights overridden
     = Ok (Names ["model.embed_tokens.weight"])
  /\ ConfiguredArchitectureInfo.pre_weights overridden <> Ok (Weights [embed_tokens])
  /\ ConfiguredArchitectureInfo.pre_weights
       (ConfiguredArchitectureInfo.update_overrides overridden
          (<["pre_weights" := ["no.such.weight"]]> ∅))
     = Ok (Names ["no.such.weight"]).
Proof.
  split; [reflexivity|]. split; [reflexivity|].
  assert (H : ConfiguredArchitectureInfo.pre_weights overridden
              = Ok (Names ["model.embed_tokens.weight"])).
  { apply (configured_pre_weights_names overridden one_override); reflexivity. }
  split; [exact H|]. split.
  - rewrite H. discriminate.
  - eapply configured_pre_weights_names; reflexivity.
Qed.

(** ** The mixture-of-experts plugin *)

Lemma fold_left_append_one {A B} (f : A -> B) (l : list A) (acc : list B) :
  fold_left (fun acc x => acc ++ [f x]) l acc = acc ++ map f l.
Proof.
  revert acc. induction l as [|x l IH]; intros acc; simpl.
  - rewrite app_nil_r. reflexivity.
  - rewrite IH, <- app_assoc. reflexivity.
Qed.

Lemma fold_left_append_group {A B} (step : list B -> A -> list B) (group : A -> list B)
    (l : list A) (acc : list B) :
  (forall acc x, step acc x = acc ++ group x) ->
  fold_left step l acc = acc ++ flat_map group l.
Proof.
  intros Hstep. revert acc. induction l as [|x l IH]; intros acc; simpl.
  - rewrite app_nil_r. reflexivity.
  - rewrite IH, Hstep, <- app_assoc. reflexivity.
Qed.

Lemma expert_names_group (index expert_idx : Z) (tensor_names : list string) :
  Mixtral.expert_names ("model.layers." +:+ str_of_int index) expert_idx tensor_names
  = tensor_names ++ expert_group index expert_idx.
Proof.
  unfold Mixtral.expert_names, expert_group, expert_tensor. simpl.
  rewrite <- !app_assoc. reflexivity.
Qed.

Lemma length_range (n : Z) : length (range n) = Z.to_nat n.
Proof. unfold range. rewrite length_map, length_seq. reflexivity. Qed.

Lemma length_flat_map_group (index : Z) (l : list Z) :
  length (flat_map (expert_group index) l) = (3 * length l)%nat.
Proof. induction l as [|x l IH]; simpl; [reflexivity | rewrite IH; lia]. Qed.

(** C4: for a plugin built with expert count [E >= 0] and any layer index
    [L], [layer_weights] returns, for each expert index 0..E-1 in order, the
    descriptors of its sub-tensors [w1], [w2], [w3] named from [L] and the
    expert index, followed by the descriptor of the routing gate of layer
    [L]: [3*E + 1] descriptors, each with only its name set. *)
Theorem mixtral_layer_weights (self : MixtralTensorNames) (L : Z) (config : PretrainedConfig) :
  0 <= num_local_experts self ->
  exists res,
    Mixtral.layer_weights self L config = Ok res
    /\ res = map WeightInfo.of_name
               (flat_map (expert_group L) (range (num_local_experts self)) ++ [gate_tensor L])
    /\ Z.of_nat (length res) = 3 * num_local_experts self + 1.
Proof.
  intros HE. eexists. split; [|split].
  - unfold Mixtral.layer_weights. cbv zeta.
    rewrite (fold_left_append_group _ (expert_group L)).
    + rewrite fold_left_append_one. reflexivity.
    + intros acc x. apply expert_names_group.
  - reflexivity.
  - simpl. rewrite length_map, length_app, length_flat_map_group, length_range.
    simpl. lia.
Qed.

Lemma mixtral_layer_weights_witness :
  exists res,
    Mixtral.layer_weights {| num_local_experts := 8 |} 2 sample_config = Ok res
    /\ res = map WeightInfo.of_name
               (flat_map (expert_group 2) (range 8) ++ [gate_tensor 2])
    /\ Z.of_nat (length res) = 3 * 8 + 1.
Proof.
  apply (mixtral_layer_weights {| num_local_experts := 8 |} 2 sample_config).
  simpl. lia.
Defined.

Example mixtral_eight_experts :
  (res ← Mixtral.layer_weights {| num_local_experts := 8 |} 2 sample_config;
   Ok (length res, WeightInfo.name <$> head res, WeightInfo.name <$> last res))
  = Ok (25%nat,
        Some "model.layers.2.block_sparse_moe.experts.0.w1.weight",
        Some "model.layers.2.block_sparse_moe.gate.weight").
Proof. vm_compute. reflexivity. Qed.

(** The plugin is built from the expert count the configuration holds. *)
Lemma mixtral_from_config (config : PretrainedConfig) (E : Z) :
  config !! "num_local_experts" = Some (PyInt E) ->
  Mixtral.from_config config = Ok {| num_local_experts := E |}.
Proof. intros H. unfold Mixtral.from_config, getattr. rewrite H. reflexivity. Qed.

(** ** The resolver *)

Section ResolverProperties.

Variable NAME_TO_ARCH : gmap string (list JsonArchitectureInfo).

Lemma expects_spec (model_type : pyval) (c : JsonArchitectureInfo) :
  expects model_type c = true
  <-> PyStr (JSONArchitectureDefinition.expected_model_type (definition c)) = model_type.
Proof.
  unfold expects, py_eq_str. destruct model_type as [| n | s | l]; try (split; discriminate).
  rewrite String.eqb_eq. split; [intros ->; reflexivity | intros H; injection H; auto].
Qed.

(** The loop returns the first candidate that expects the declared type. *)
Lemma select_by_model_type_find (candidates : list JsonArchitectureInfo)
    (config : PretrainedConfig) (model_type : pyval) :
  config !! "model_type" = Some model_type ->
  select_by_model_type candidates config = Ok (List.find (expects model_type) candidates).
Proof.
  intros Hmt. induction candidates as [|c cs IH]; simpl; [reflexivity|].
  unfold getattr. rewrite Hmt; simpl.
  destruct (expects model_type c); [reflexivity | exact IH].
Qed.

Lemma find_unique (model_type : pyval) (candidates : list JsonArchitectureInfo)
    (c : JsonArchitectureInfo) :
  In c candidates ->
  expects model_type c = true ->
  (forall c', In c' candidates -> expects model_type c' = true -> c' = c) ->
  List.find (expects model_type) candidates = Some c.
Proof.
  intros Hin Hc Huniq.
  destruct (List.find (expects model_type) candidates) as [c'|] eqn:Hfind.
  - apply find_some in Hfind as [Hin' Hc']. rewrite (Huniq c' Hin' Hc'). reflexivity.
  - exfalso. pose proof (find_none _ _ Hfind c Hin) as Hno. rewrite Hc in Hno. discriminate.
Qed.

Lemma find_no_match (model_type : pyval) (candidates : list JsonArchitectureInfo) :
  (forall c, In c candidates -> expects model_type c = false) ->
  List.find (expects model_type) candidates = None.
Proof.
  intros Hno. destruct (List.find (expects model_type) candidates) as [c|] eqn:Hfind;
    [|reflexivity].
  apply find_some in Hfind as [Hin Hc]. rewrite (Hno c Hin) in Hc. discriminate.
Qed.

(** The resolver past its first check. *)
Lemma resolver_one_name (config : PretrainedConfig) (arch_name : pyval) :
  config !! "architectures" = Some (PyList [arch_name]) ->
  _load_architecture_info NAME_TO_ARCH config
  = if py_eq_str Mixtral.ARCHITECTURE_NAME arch_name
    then m ← Mixtral.from_config config; Ok (MixtralArch m)
    else
      match arch_name with
      | PyList _ => Err (TypeError "unhashable type: 'list'")
      | PyNone | PyInt _ => Err (RuntimeError (UnsupportedArchitecture arch_name))
      | PyStr name =>
          match NAME_TO_ARCH !! name with
          | None => Err (RuntimeError (UnsupportedArchitecture arch_name))
          | Some candidates =>
              match candidates with
              | [c] => Ok (JsonArch c)
              | _ =>
                  found ← select_by_model_type candidates config;
                  match found with
                  | Some c => Ok (JsonArch c)
                  | None =>
                      model_type ← getattr config (Some "model_type");
                      Err (RuntimeError (UnsupportedModelType model_type arch_name))
                  end
              end
          end
      end.
Proof. intros Harch. unfold _load_architecture_info, getattr. rewrite Harch. reflexivity. Qed.

(** The resolver on a configuration that declares the one name [name], other
    than the plugin's, for which the index holds several candidates. *)
Lemma resolver_several_candidates (config : PretrainedConfig) (name : string)
    (candidates : list JsonArchitectureInfo) (model_type : pyval) :
  config !! "architectures" = Some (PyList [PyStr name]) ->
  name <> Mixtral.ARCHITECTURE_NAME ->
  NAME_TO_ARCH !! name = Some candidates ->
  (2 <= length candidates)%nat ->
  config !! "model_type" = Some model_type ->
  _load_architecture_info NAME_TO_ARCH config
  = match List.find (expects model_type) candidates with
    | Some c => Ok (JsonArch c)
    | None => Err (RuntimeError (UnsupportedModelType model_type (PyStr name)))
    end.
Proof.
  intros Harch Hname Hcand Hlen Hmt. rewrite (resolver_one_name _ _ Harch).
  unfold py_eq_str.
  destruct (String.eqb Mixtral.ARCHITECTURE_NAME name) eqn:Heq.
  { apply String.eqb_eq in Heq. congruence. }
  rewrite Hcand.
  destruct candidates as [|c1 [|c2 cs]]; simpl in Hlen; try lia.
  rewrite (select_by_model_type_find _ _ _ Hmt).
  destruct (List.find _ _); [reflexivity|].
  unfold getattr. rewrite Hmt. reflexivity.
Qed.

(** C3: for a configuration that declares one architecture name for which
    the index holds two or more definitions (the name of the hardcoded
    plugin is dealt with before any lookup and is not meant here), the
    resolver returns the definition whose expected model type equals the
    declared model type, and raises the unsupported-model-type error when no
    candidate expects it. *)
Theorem resolver_disambiguates_by_model_type (config : PretrainedConfig) (name : string)
    (candidates : list JsonArchitectureInfo) (model_type : pyval) :
  config !! "architectures" = Some (PyList [PyStr name]) ->
  name <> Mixtral.ARCHITECTURE_NAME ->
  NAME_TO_ARCH !! name = Some candidates ->
  (2 <= length candidates)%nat ->
  config !! "model_type" = Some model_type ->
  (forall c,
      In c candidates ->
      PyStr (JSONArchitectureDefinition.expected_model_type (definition c)) = model_type ->
      (forall c', In c' candidates ->
                  PyStr (JSONArchitectureDefinition.expected_model_type (definition c'))
                  = model_type -> c' = c) ->
      _load_architecture_info NAME_TO_ARCH config = Ok (JsonArch c))
  /\ ((forall c, In c candidates ->
                 PyStr (JSONArchitectureDefinition.expected_model_type (definition c))
                 <> model_type) ->
      _load_architecture_info NAME_TO_ARCH config
      = Err (RuntimeError (UnsupportedModelType model_type (PyStr name)))).
Proof.
  intros Harch Hname Hcand Hlen Hmt.
  rewrite (resolver_several_candidates config name candidates model_type) by assumption.
  split.
  - intros c Hin Hc Huniq. rewrite (find_unique model_type candidates c); [reflexivity | | |].
    + exact Hin.
    + apply expects_spec, Hc.
    + intros c' Hin' Hc'. apply Huniq; [exact Hin' | apply expects_spec, Hc'].
  - intros Hno. rewrite find_no_match; [reflexivity|].
    intros c Hin. destruct (expects model_type c) eqn:Hc; [|reflexivity].
    exfalso. apply (Hno c Hin), expects_spec, Hc.
Qed.

(** C10: a configuration whose list of declared architecture names has no
    element, or more than one, is rejected with the resolver's first error,
    and a list of exactly one element never is. *)
Theorem resolver_requires_one_architecture (config : PretrainedConfig) (names : list pyval) :
  config !! "architectures" = Some (PyList names) ->
  (names = [] ->
   _load_architecture_info NAME_TO_ARCH config = Err (RuntimeError MoreThanOneArchitecture))
  /\ (length names <> 1%nat ->
      _load_architecture_info NAME_TO_ARCH config = Err (RuntimeError MoreThanOneArchitecture))
  /\ (length names = 1%nat ->
      _load_architecture_info NAME_TO_ARCH config <> Err (RuntimeError MoreThanOneArchitecture)).
Proof.
  intros Harch.
  assert (Hne : length names <> 1%nat ->
                _load_architecture_info NAME_TO_ARCH config
                = Err (RuntimeError MoreThanOneArchitecture)).
  { intros Hlen. unfold _load_architecture_info, getattr. rewrite Harch; simpl.
    destruct (Nat.eqb (length names) 1) eqn:E; [|reflexivity].
    apply Nat.eqb_eq in E. contradiction. }
  split; [|split].
  - intros ->. apply Hne. simpl. lia.
  - exact Hne.
  - intros Hlen. destruct names as [|x [|y names]]; simpl in Hlen; try lia.
    rewrite (resolver_one_name _ _ Harch).
    destruct (py_eq_str Mixtral.ARCHITECTURE_NAME x).
    { unfold Mixtral.from_config, getattr.
      destruct (config !! "num_local_experts") as [[| n | s | l]|]; simpl; discriminate. }
    destruct x as [| n | s | l]; try discriminate.
    destruct (NAME_TO_ARCH !! s) as [candidates|]; [|discriminate].
    assert (Hsel : forall cs, select_by_model_type cs config
                              <> Err (RuntimeError MoreThanOneArchitecture)).
    { induction cs as [|c cs IH]; simpl; [discriminate|].
      unfold getattr. destruct (config !! "model_type") as [mt|]; simpl; [|discriminate].
      destruct (expects mt c); [discriminate | exact IH]. }
    assert (Hloop : (found ← select_by_model_type candidates config;
                     match found with
                     | Some c => Ok (JsonArch c)
                     | None =>
                         model_type ← getattr config (Some "model_type");
                         Err (RuntimeError (UnsupportedModelType model_type (PyStr s)))
                     end) <> Err (RuntimeError MoreThanOneArchitecture)).
    { specialize (Hsel candidates).
      destruct (select_by_model_type candidates config) as [[c|]|e]; simpl.
      - discriminate.
      - unfold getattr. destruct (config !! "model_type"); discriminate.
      - congruence. }
    destruct candidates as [|c1 [|c2 cs]]; [exact Hloop | discriminate | exact Hloop].
Qed.

End ResolverProperties.

Lemma resolver_disambiguates_by_model_type_witness :
  _load_architecture_info (name_to_arch [def_a; def_b]) (config_of "X" "a") = Ok (JsonArch def_a)
  /\ _load_architecture_info (name_to_arch [def_a; def_b]) (config_of "X" "c")
     = Err (RuntimeError (UnsupportedModelType (PyStr "c") (PyStr "X"))).
Proof.
  split.
  - refine (proj1 (resolver_disambiguates_by_model_type (name_to_arch [def_a; def_b])
                     (config_of "X" "a") "X" [def_a; def_b] (PyStr "a") _ _ _ _ _)
              def_a _ _ _);
      try reflexivity; try discriminate; simpl; try lia; auto.
    intros c' [<- | [<- | []]] H; [reflexivity | discriminate H].
  - refine (proj2 (resolver_disambiguates_by_model_type (name_to_arch [def_a; def_b])
                     (config_of "X" "c") "X" [def_a; def_b] (PyStr "c") _ _ _ _ _) _);
      try reflexivity; try discriminate; simpl; try lia.
    intros c [<- | [<- | []]]; discriminate.
Defined.

Lemma resolver_requires_one_architecture_witness :
  _load_architecture_info (name_to_arch [def_a; def_b])
    (<["architectures" := PyList []]> (config_of "X" "a"))
  = Err (RuntimeError MoreThanOneArchitecture).
Proof.
  refine (proj1 (resolver_requires_one_architecture (name_to_arch [def_a; def_b])
                   (<["architectures" := PyList []]> (config_of "X" "a")) [] _) _);
    reflexivity.
Defined.

(** The example of the specification: one name, two model types. *)
Example resolve_shared_name :
  _load_architecture_info (name_to_arch [def_a; def_b]) (config_of "X" "b") = Ok (JsonArch def_b)
  /\ _load_architecture_info (name_to_arch [def_a]) (config_of "X" "zzz") = Ok (JsonArch def_a)
  /\ _load_architecture_info (name_to_arch [def_a; def_b]) (config_of "Y" "a")
     = Err (RuntimeError (UnsupportedArchitecture (PyStr "Y"))).
Proof. repeat split; vm_compute; reflexivity. Qed.

(** ** The mapping table *)

Lemma for_each_invariant {A S} (P : S -> Prop) (body : S -> A -> result S)
    (l : list A) (acc r : S) :
  (forall acc x acc', P acc -> body acc x = Ok acc' -> P acc') ->
  P acc -> for_each body l acc = Ok r -> P r.
Proof.
  intros Hbody. revert acc. induction l as [|x l IH]; simpl; intros acc Hacc H.
  - injection H as <-. exact Hacc.
  - apply bind_Ok in H as (acc' & Hx & H). eapply IH; [|exact H]. eauto.
Qed.

(** A pair that is not yet in the table makes the loader subscript the
    [MappingInfo], which raises. *)
Lemma add_destination_raises (mapping : MappingInfo.t) (start dest : string)
    (mappings : gmap string (gmap string mapping_entry)) :
  rows_empty mappings ->
  add_destination mapping start mappings dest
  = Err (TypeError "'MappingInfo' object is not subscriptable").
Proof.
  intros Hrows. unfold add_destination.
  destruct (mappings !! start) as [row|] eqn:Hrow; simpl.
  - rewrite (Hrows _ _ Hrow), lookup_empty. reflexivity.
  - rewrite lookup_empty. reflexivity.
Qed.

Lemma add_start_rows_empty (mapping : MappingInfo.t) (start : string)
    (mappings mappings' : gmap string (gmap string mapping_entry)) :
  rows_empty mappings ->
  add_start mapping mappings start = Ok mappings' ->
  rows_empty mappings'.
Proof.
  intros Hrows. unfold add_start.
  set (m1 := match mappings !! start with Some _ => mappings | None => _ end).
  assert (H1 : rows_empty m1).
  { subst m1. destruct (mappings !! start) eqn:Hs; [exact Hrows|].
    intros src row Hrow. destruct (decide (start = src)) as [->|Hne].
    - rewrite lookup_insert_eq in Hrow. congruence.
    - rewrite lookup_insert_ne in Hrow by exact Hne. eapply Hrows, Hrow. }
  destruct (MappingInfo.destination_architectures mapping) as [|dest dests]; simpl.
  - intros H. injection H as <-. exact H1.
  - rewrite (add_destination_raises _ _ _ _ H1). discriminate.
Qed.

(** Whenever the loader returns a table, the table holds no pair. *)
Lemma load_all_mappings_no_pair (resources : list MappingInfo.t)
    (table : gmap string (gmap string mapping_entry)) (src dst : string)
    (row : gmap string mapping_entry) :
  _load_all_mappings resources = Ok table ->
  table !! src = Some row ->
  row !! dst = None.
Proof.
  intros Hload Hrow.
  assert (Hrows : rows_empty table).
  { unfold _load_all_mappings in Hload.
    eapply (for_each_invariant rows_empty); [| |exact Hload].
    - intros acc mapping acc' Hacc Hstep.
      eapply (for_each_invariant rows_empty); [| exact Hacc | exact Hstep].
      intros acc0 start acc1 Hacc0 H. eapply add_start_rows_empty; eauto.
    - intros s r Hs. rewrite lookup_empty in Hs. discriminate. }
  rewrite (Hrows _ _ Hrow). apply lookup_empty.
Qed.

(** C6: on one mapping resource from [LlamaForCausalLM] to
    [MistralForCausalLM], whose destination-side lists are in the resource,
    the loader does not build a table in which the pair can be looked up: it
    subscripts the [MappingInfo] and raises [TypeError]. *)
Theorem load_all_mappings_raises :
  MappingInfo.pre_weights_mapping sample_mapping !! "destination"
  = Some ["model.embed_tokens.weight"]
  /\ MappingInfo.post_weights_mapping sample_mapping !! "destination"
     = Some ["model.norm.weight"; "lm_head.weight"]
  /\ _load_all_mappings [sample_mapping]
     = Err (TypeError "'MappingInfo' object is not subscriptable").
Proof. repeat split; vm_compute; reflexivity. Qed.

(** * Further properties *)

(** ** The placeholder grammar *)

Lemma length_append (a b : string) :
  String.length (a +:+ b) = (String.length a + String.length b)%nat.
Proof. induction a as [|c a IH]; simpl; [reflexivity | rewrite IH; reflexivity]. Qed.

Lemma id_run_le (s : string) : (Template.id_run s <= String.length s)%nat.
Proof.
  induction s as [|c s IH]; simpl; [lia|].
  destruct (Template.is_id_char c); lia.
Qed.

(** A closing brace ends the run of identifier characters. *)
Lemma id_run_brace (r rest : string) :
  Template.id_run (r +:+ String "}" rest) = Template.id_run r.
Proof.
  induction r as [|c r IH]; simpl; [reflexivity|].
  destruct (Template.is_id_char c); [rewrite IH|]; reflexivity.
Qed.

Lemma drop_append (n : nat) (r s : string) :
  (n <= String.length r)%nat -> Template.drop n (r +:+ s) = Template.drop n r +:+ s.
Proof.
  revert r. induction n as [|n IH]; intros r Hn.
  - destruct r; reflexivity.
  - destruct r as [|c r]; simpl in Hn; [lia|]. simpl. apply IH. lia.
Qed.

Lemma length_drop (n : nat) (r : string) :
  String.length (Template.drop n r) = (String.length r - n)%nat.
Proof.
  revert r. induction n as [|n IH]; intros r.
  - destruct r; simpl; lia.
  - destruct r as [|c r]; simpl; [reflexivity | apply IH].
Qed.

Lemma take_length_append (a s : string) : Template.take (String.length a) (a +:+ s) = a.
Proof. induction a as [|c a IH]; simpl; [destruct s; reflexivity | rewrite IH; reflexivity]. Qed.

Lemma drop_length_append (a s : string) : Template.drop (String.length a) (a +:+ s) = s.
Proof. induction a as [|c a IH]; simpl; [destruct s; reflexivity | exact IH]. Qed.

(** An arithmetic suffix that takes all of [x] is still matched, and nothing
    more, when a closing brace follows. *)
Lemma arith_suffix_brace (x rest : string) :
  Template.arith_suffix x = String.length x ->
  Template.arith_suffix (x +:+ String "}" rest) = String.length x.
Proof.
  destruct x as [|a [|b [|c x]]]; simpl.
  - intros _. destruct rest; reflexivity.
  - discriminate.
  - intros H. exact H.
  - destruct ((Ascii.eqb a "+" || Ascii.eqb a "-") && Ascii.eqb b "1")%bool; intros H; lia.
Qed.

Lemma arith_suffix_le (x : string) : (Template.arith_suffix x <= String.length x)%nat.
Proof.
  destruct x as [|a [|b x]]; simpl; try lia.
  destruct ((Ascii.eqb a "+" || Ascii.eqb a "-") && Ascii.eqb b "1")%bool; lia.
Qed.

(** An identifier in braces is matched as such, whatever follows. *)
Lemma match_id_brace (id rest : string) :
  is_identifier id = true ->
  Template.match_id (id +:+ String "}" rest) = Some (String.length id).
Proof.
  unfold is_identifier, Template.match_id.
  destruct id as [|c r]; [discriminate|]. simpl.
  destruct (Template.is_id_start c); [|discriminate].
  intros H. apply Nat.eqb_eq in H. injection H as H.
  pose proof (id_run_le r) as Hle.
  rewrite id_run_brace, (drop_append _ _ _ Hle).
  rewrite arith_suffix_brace.
  - rewrite length_drop. f_equal. lia.
  - rewrite length_drop. lia.
Qed.

Lemma not_id_start_brace : Template.is_id_start "{" = false.
Proof. reflexivity. Qed.

Lemma token_at_braced (id rest : string) :
  is_identifier id = true ->
  Template.token_at (String "{" (id +:+ String "}" rest))
  = (Template.Braced id, S (S (String.length id))).
Proof.
  intros Hid. unfold Template.token_at.
  change (Template.match_id (String "{" (id +:+ String "}" rest))) with (@None nat).
  rewrite (match_id_brace _ _ Hid), drop_length_append, take_length_append.
  reflexivity.
Qed.

(** Passing over the characters of a match. *)
Lemma sub_skip (mapping : gmap string Z) (a s : string) :
  Template.sub mapping (String.length a) (a +:+ s) = Template.sub mapping O s.
Proof. induction a as [|c a IH]; simpl; [destruct s; reflexivity | exact IH]. Qed.

Lemma sub_braced (mapping : gmap string Z) (id post : string) :
  is_identifier id = true ->
  Template.sub mapping O (String "$" (String "{" (id +:+ String "}" post)))
  = (r ← Template.convert mapping (Template.Braced id);
     tail ← Template.sub mapping O post;
     Ok (r +:+ tail)).
Proof.
  intros Hid.
  change (Template.sub mapping O (String "$" (String "{" (id +:+ String "}" post))))
    with (let '(tok, n) := Template.token_at (String "{" (id +:+ String "}" post)) in
          r ← Template.convert mapping tok;
          tail ← Template.sub mapping n (String "{" (id +:+ String "}" post));
          Ok (r +:+ tail)).
  rewrite (token_at_braced _ _ Hid).
  change (Template.sub mapping (S (S (String.length id))) (String "{" (id +:+ String "}" post)))
    with (Template.sub mapping (S (String.length id)) (id +:+ String "}" post)).
  replace (S (String.length id)) with (String.length (id +:+ "}")).
  - replace (id +:+ String "}" post) with ((id +:+ "}") +:+ post).
    + rewrite sub_skip. reflexivity.
    + rewrite append_assoc. reflexivity.
  - rewrite length_append. simpl. lia.
Qed.

(** A braced identifier after text without delimiter. *)
Lemma braced_placeholder_rewritten
    (mapping : gmap string Z) (pre id post : string) :
  contains "$" pre = false ->
  is_identifier id = true ->
  Template.substitute (pre +:+ "${" +:+ id +:+ "}" +:+ post) mapping
  = match mapping !! id with
    | Some v => tail ← Template.substitute post mapping; Ok (pre +:+ str_of_int v +:+ tail)
    | None => Err (KeyError id)
    end.
Proof.
  intros Hpre Hid. unfold Template.substitute.
  rewrite (sub_prefix _ _ _ Hpre).
  change ("${" +:+ id +:+ "}" +:+ post) with (String "$" (String "{" (id +:+ String "}" post))).
  rewrite (sub_braced _ _ _ Hid). simpl.
  destruct (mapping !! id) as [v|]; simpl; [|reflexivity].
  destruct (Template.sub mapping O post); reflexivity.
Qed.

(** X1: a braced placeholder whose identifier the pattern matches, after
    text without delimiter, is replaced by the decimal rendering of its table
    entry, the rest of the template being substituted in turn; when the
    table has no entry for it, substitution raises [KeyError] with that
    identifier, whatever follows. *)
Theorem substitute_braced_placeholder
    (mapping : gmap string Z) (pre id post : string) :
  contains "$" pre = false ->
  is_identifier id = true ->
  Template.substitute (pre +:+ "${" +:+ id +:+ "}" +:+ post) mapping
  = match mapping !! id with
    | Some v => tail ← Template.substitute post mapping; Ok (pre +:+ str_of_int v +:+ tail)
    | None => Err (KeyError id)
    end.
Proof.
  intros Hpre Hid. unfold Template.substitute.
  rewrite (sub_prefix _ _ _ Hpre).
  change ("${" +:+ id +:+ "}" +:+ post) with (String "$" (String "{" (id +:+ String "}" post))).
  rewrite (sub_braced _ _ _ Hid). simpl.
  destruct (mapping !! id) as [v|]; simpl; [|reflexivity].
  destruct (Template.sub mapping O post); reflexivity.
Qed.

Lemma substitute_braced_placeholder_witness :
  Template.substitute ("model.layers." +:+ "${" +:+ "layer_index" +:+ "}" +:+ ".${num_layerz}")
    (<["layer_index" := 7]> ∅)
  = match (<["layer_index" := 7]> ∅ : gmap string Z) !! "layer_index" with
    | Some v =>
        tail ← Template.substitute ".${num_layerz}" (<["layer_index" := 7]> ∅);
        Ok ("model.layers." +:+ str_of_int v +:+ tail)
    | None => Err (KeyError "layer_index")
    end.
Proof.
  apply (substitute_braced_placeholder (<["layer_index" := 7]> ∅)
           "model.layers." "layer_index" ".${num_layerz}"); reflexivity.
Defined.

(** X2: after text without delimiter, a doubled delimiter is replaced by one
    delimiter and the rest is substituted in turn; a delimiter at the end of
    the template, or followed by a character that is neither a delimiter,
    nor an opening brace, nor the start of an identifier, makes substitution
    raise [ValueError]. *)
Theorem substitute_escape_and_invalid (mapping : gmap string Z) (pre post : string) (c : ascii) :
  contains "$" pre = false ->
  Ascii.eqb c "$" = false ->
  Ascii.eqb c "{" = false ->
  Template.is_id_start c = false ->
  Template.substitute (pre +:+ "$$" +:+ post) mapping
  = (tail ← Template.substitute post mapping; Ok (pre +:+ "$" +:+ tail))
  /\ Template.substitute (pre +:+ "$") mapping
     = Err (ValueError "Invalid placeholder in string")
  /\ Template.substitute (pre +:+ "$" +:+ String c post) mapping
     = Err (ValueError "Invalid placeholder in string").
Proof.
  intros Hpre Hd Hb Hs. unfold Template.substitute. rewrite !(sub_prefix _ _ _ Hpre).
  split; [|split].
  - change ("$$" +:+ post) with (String "$" (String "$" post)).
    assert (H : Template.sub mapping O (String "$" (String "$" post))
                = (tail ← Template.sub mapping O post; Ok (String "$" tail))).
    { simpl. destruct (Template.sub mapping O post); reflexivity. }
    rewrite H. destruct (Template.sub mapping O post); reflexivity.
  - reflexivity.
  - change ("$" +:+ String c post) with (String "$" (String c post)).
    assert (Htok : Template.token_at (String c post) = (Template.Invalid, O)).
    { unfold Template.token_at, Template.match_id. rewrite Hs.
      destruct c as [b0 b1 b2 b3 b4 b5 b6 b7].
      destruct b0, b1, b2, b3, b4, b5, b6, b7; try reflexivity; discriminate. }
    cbn [Template.sub]. change (Ascii.eqb "$" "$") with true. cbv iota.
    rewrite Htok. reflexivity.
Qed.

Lemma substitute_escape_and_invalid_witness :
  Template.substitute ("a." +:+ "$" +:+ String " " "{b}") ∅
  = Err (ValueError "Invalid placeholder in string").
Proof.
  apply (substitute_escape_and_invalid ∅ "a." "{b}" " "); reflexivity.
Defined.

(** ** Field-wise view of [_substitute] *)

Lemma substitute_entry_str (table : gmap string Z) (key s : string) :
  Json.substitute_entry table (key, JStr s)
  = (s' ← substitute_str table s; Ok (key, JStr s')).
Proof.
  unfold Json.substitute_entry, substitute_str.
  destruct (contains "{" s); [reflexivity|]. reflexivity.
Qed.

Lemma substitute_entry_other (table : gmap string Z) (key : string) :
  (forall b, Json.substitute_entry table (key, JBool b) = Ok (key, JBool b))
  /\ Json.substitute_entry table (key, JNull) = Ok (key, JNull)
  /\ (forall l, Json.substitute_entry table (key, JStrList l) = Ok (key, JStrList l)).
Proof. repeat split. Qed.

Ltac case_substitutions :=
  repeat match goal with
         | |- context [substitute_str ?t ?s] => destruct (substitute_str t s); simpl
         end.

(** With the table built, [_substitute] on a [WeightInfo] rewrites the name
    and the two space tags, in this order, and rebuilds the descriptor around
    the other fields. *)
Lemma substitute_weight_fields (self : JsonArchitectureInfo) (config : PretrainedConfig)
    (layer_idx : option Z) (num_layers : pyval) (table : gmap string Z) (w : WeightInfo.t) :
  Json.num_layers self config = Ok num_layers ->
  Json.substitutions num_layers layer_idx = Ok table ->
  Json._substitute self w config layer_idx
  = (n ← substitute_str table (WeightInfo.name w);
     i ← substitute_optional table (WeightInfo.input_space_field w);
     o ← substitute_optional table (WeightInfo.output_space_field w);
     Ok (WeightInfo.mk n (WeightInfo.is_embed_field w) (WeightInfo.is_lm_head_field w)
           i o (WeightInfo.optional_field w) (WeightInfo.aliases_field w))).
Proof.
  intros Hn Ht. rewrite (substitute_with_table _ _ _ _ _ _ Hn Ht).
  change (model_dump_exclude_unset w) with (WeightInfo.dump w).
  change (@model_validate WeightInfo.t _) with WeightInfo.validate.
  destruct w as [n [e|] [h|] [[i|]|] [[o|]|] [p|] [[a|]|]];
    unfold WeightInfo.dump, substitute_optional, dump_field, optional_str_to_json,
      optional_list_to_json;
    cbn [app comprehension WeightInfo.name WeightInfo.is_embed_field
           WeightInfo.is_lm_head_field WeightInfo.input_space_field
           WeightInfo.output_space_field WeightInfo.optional_field
           WeightInfo.aliases_field];
    rewrite ?substitute_entry_str;
    rewrite ?(proj1 (substitute_entry_other table _)),
      ?(proj1 (proj2 (substitute_entry_other table _))),
      ?(proj2 (proj2 (substitute_entry_other table _)));
    case_substitutions; reflexivity.
Qed.

(** ... and on a [ProceduralSpaceInfo] rewrites the name only. *)
Lemma substitute_space_fields (self : JsonArchitectureInfo) (config : PretrainedConfig)
    (layer_idx : option Z) (num_layers : pyval) (table : gmap string Z)
    (s : ProceduralSpaceInfo.t) :
  Json.num_layers self config = Ok num_layers ->
  Json.substitutions num_layers layer_idx = Ok table ->
  Json._substitute self s config layer_idx
  = (n ← substitute_str table (ProceduralSpaceInfo.name s);
     Ok (ProceduralSpaceInfo.mk n (ProceduralSpaceInfo.inputs s))).
Proof.
  intros Hn Ht. rewrite (substitute_with_table _ _ _ _ _ _ Hn Ht).
  change (model_dump_exclude_unset s) with (ProceduralSpaceInfo.dump s).
  change (@model_validate ProceduralSpaceInfo.t _) with ProceduralSpaceInfo.validate.
  destruct s as [n l]. unfold ProceduralSpaceInfo.dump, ProceduralSpaceInfo.type.
  cbn [comprehension ProceduralSpaceInfo.name ProceduralSpaceInfo.inputs ProceduralSpaceInfo.type].
  rewrite !substitute_entry_str.
  rewrite (proj2 (proj2 (substitute_entry_other table _))).
  change (substitute_str table "residual") with (@Ok string "residual").
  case_substitutions; reflexivity.
Qed.

(** A successful [_substitute] has read the layer count and built its table. *)
Lemma substitute_Ok_table {T} `{BaseModel T} (self : JsonArchitectureInfo)
    (config : PretrainedConfig) (layer_idx : option Z) (item item' : T) :
  Json._substitute self item config layer_idx = Ok item' ->
  exists num_layers table,
    Json.num_layers self config = Ok num_layers
    /\ Json.substitutions num_layers layer_idx = Ok table.
Proof.
  unfold Json._substitute. intros Hs.
  apply bind_Ok in Hs as (nl & Hn & Hs). apply bind_Ok in Hs as (t & Ht & _). eauto.
Qed.

(** ** Arithmetic placeholders in any string field *)

Lemma field_substituted_str (N : Z) (layer_idx : option Z) (table : gmap string Z)
    (s s' : string) :
  Json.substitutions (PyInt N) layer_idx = Ok table ->
  field_substituted N layer_idx s s' ->
  substitute_str table s = Ok s'.
Proof.
  intros Ht Hf. unfold substitute_str. destruct Hf as [s Hfree | pre ph post v Hpre Hpost Hph].
  - destruct (contains "{" s) eqn:Hb; [|reflexivity].
    unfold placeholder_free in Hfree. rewrite Hb, andb_true_r in Hfree.
    apply negb_true_iff in Hfree. apply sub_no_delimiter, Hfree.
  - assert (Hbrace : contains "{" (pre +:+ ph +:+ post) = true).
    { rewrite !contains_append. destruct Hph; simpl; rewrite orb_true_r; reflexivity. }
    rewrite Hbrace. unfold Template.substitute. rewrite (sub_prefix _ _ _ Hpre).
    simpl in Ht. injection Ht as <-.
    destruct Hph as [i | i | idx].
    + rewrite (sub_braced_layer_index_plus _ (i + 1)) by reflexivity.
      rewrite (sub_no_delimiter _ _ Hpost). reflexivity.
    + rewrite (sub_braced_layer_index_minus _ (i - 1)) by reflexivity.
      rewrite (sub_no_delimiter _ _ Hpost). reflexivity.
    + rewrite (sub_braced_num_layers_minus _ (N - 1)) by (destruct idx; reflexivity).
      rewrite (sub_no_delimiter _ _ Hpost). reflexivity.
Qed.

Lemma optional_substituted_str (N : Z) (layer_idx : option Z) (table : gmap string Z)
    (o o' : option (option string)) :
  Json.substitutions (PyInt N) layer_idx = Ok table ->
  optional_substituted N layer_idx o o' ->
  substitute_optional table o = Ok o'.
Proof.
  intros Ht Ho. destruct o as [[s|]|]; simpl.
  - destruct o' as [[s'|]|]; simpl in Ho; try discriminate Ho.
    rewrite (field_substituted_str _ _ _ _ _ Ht Ho). reflexivity.
  - destruct o' as [[s'|]|]; simpl in Ho; try discriminate Ho. reflexivity.
  - destruct o' as [[s'|]|]; simpl in Ho; try discriminate Ho. reflexivity.
Qed.

(** C7: with layer count [N] read from the configuration and a valid layer
    index [i], the table of a layer-scoped substitution supplies
    [num_layers], [num_layers+1], [num_layers-1], [layer_index],
    [layer_index+1] and [layer_index-1] with the values [N], [N+1], [N-1],
    [i], [i+1], [i-1], and the table of a substitution without layer index
    supplies the first three only; in every string field of a descriptor
    (the name and the two space tags of a weight, the name of a procedural
    space) [${layer_index+1}] is replaced by [i+1], [${layer_index-1}] by
    [i-1] and [${num_layers-1}] by [N-1], the other fields being kept. *)
Theorem substitute_arithmetic_placeholders
    (self : JsonArchitectureInfo) (config : PretrainedConfig) (N i : Z) :
  Json.num_layers self config = Ok (PyInt N) ->
  0 <= i < N ->
  (exists t0 t1 : gmap string Z,
      Json.substitutions (PyInt N) None = Ok t0
      /\ Json.substitutions (PyInt N) (Some i) = Ok t1
      /\ t0 !! "num_layers" = Some N
      /\ t0 !! "num_layers+1" = Some (N + 1)
      /\ t0 !! "num_layers-1" = Some (N - 1)
      /\ t0 !! "layer_index" = None
      /\ t0 !! "layer_index+1" = None
      /\ t0 !! "layer_index-1" = None
      /\ t1 !! "num_layers" = Some N
      /\ t1 !! "num_layers+1" = Some (N + 1)
      /\ t1 !! "num_layers-1" = Some (N - 1)
      /\ t1 !! "layer_index" = Some i
      /\ t1 !! "layer_index+1" = Some (i + 1)
      /\ t1 !! "layer_index-1" = Some (i - 1))
  /\ (forall (layer_idx : option Z) (w w' : WeightInfo.t),
        layer_idx = None \/ layer_idx = Some i ->
        weight_substituted N layer_idx w w' ->
        Json._substitute self w config layer_idx = Ok w')
  /\ (forall (layer_idx : option Z) (s s' : ProceduralSpaceInfo.t),
        layer_idx = None \/ layer_idx = Some i ->
        space_substituted N layer_idx s s' ->
        Json._substitute self s config layer_idx = Ok s').
Proof.
  intros Hn _. split; [|split].
  - eexists _, _. repeat split; reflexivity.
  - intros layer_idx w w' _ (Hname & Hin & Hout & He & Hh & Hp & Ha).
    destruct (Json.substitutions (PyInt N) layer_idx) as [table|e] eqn:Ht;
      [|discriminate Ht].
    rewrite (substitute_weight_fields _ _ _ _ _ _ Hn Ht).
    rewrite (field_substituted_str _ _ _ _ _ Ht Hname).
    rewrite (optional_substituted_str _ _ _ _ _ Ht Hin).
    rewrite (optional_substituted_str _ _ _ _ _ Ht Hout).
    destruct w'; simpl in *. subst. reflexivity.
  - intros layer_idx s s' _ (Hname & Hinputs).
    destruct (Json.substitutions (PyInt N) layer_idx) as [table|e] eqn:Ht;
      [|discriminate Ht].
    rewrite (substitute_space_fields _ _ _ _ _ _ Hn Ht).
    rewrite (field_substituted_str _ _ _ _ _ Ht Hname).
    destruct s'; simpl in *. subst. reflexivity.
Qed.

Lemma substitute_arithmetic_placeholders_witness :
  Json._substitute sample_info
    (WeightInfo.mk ("model.layers." +:+ "${layer_index+1}" +:+ ".w") None None
       (Some (Some ("h_" +:+ "${layer_index-1}" +:+ "")))
       (Some (Some ("out_of_" +:+ "${num_layers-1}" +:+ ""))) None None)
    sample_config (Some 1)
  = Ok (WeightInfo.mk ("model.layers." +:+ str_of_int (1 + 1) +:+ ".w") None None
          (Some (Some ("h_" +:+ str_of_int (1 - 1) +:+ "")))
          (Some (Some ("out_of_" +:+ str_of_int (2 - 1) +:+ ""))) None None).
Proof.
  refine (proj1 (proj2 (substitute_arithmetic_placeholders sample_info sample_config 2 1 _ _))
            (Some 1) _ _ _ _); first [ reflexivity | lia | auto | idtac ].
  repeat split.
  - exact (field_rewritten 2 (Some 1) "model.layers." "${layer_index+1}" ".w" (1 + 1)
             eq_refl eq_refl (layer_index_plus_one 2 1)).
  - exact (field_rewritten 2 (Some 1) "h_" "${layer_index-1}" "" (1 - 1)
             eq_refl eq_refl (layer_index_minus_one 2 1)).
  - exact (field_rewritten 2 (Some 1) "out_of_" "${num_layers-1}" "" (2 - 1)
             eq_refl eq_refl (num_layers_minus_one 2 (Some 1))).
Defined.


(** What a successful [_substitute] leaves as it was. *)
Lemma substitute_other_fields (self : JsonArchitectureInfo) (config : PretrainedConfig)
    (layer_idx : option Z) (w w' : WeightInfo.t) :
  Json._substitute self w config layer_idx = Ok w' ->
  WeightInfo.is_embed_field w' = WeightInfo.is_embed_field w
  /\ WeightInfo.is_lm_head_field w' = WeightInfo.is_lm_head_field w
  /\ WeightInfo.optional_field w' = WeightInfo.optional_field w
  /\ WeightInfo.aliases_field w' = WeightInfo.aliases_field w
  /\ (WeightInfo.input_space_field w' = None <-> WeightInfo.input_space_field w = None)
  /\ (WeightInfo.input_space_field w' = Some None <-> WeightInfo.input_space_field w = Some None)
  /\ (WeightInfo.output_space_field w' = None <-> WeightInfo.output_space_field w = None)
  /\ (WeightInfo.output_space_field w' = Some None
      <-> WeightInfo.output_space_field w = Some None).
Proof.
  intros Hs. destruct (substitute_Ok_table _ _ _ _ _ Hs) as (nl & table & Hn & Ht).
  rewrite (substitute_weight_fields _ _ _ _ _ _ Hn Ht) in Hs.
  apply bind_Ok in Hs as (n & _ & Hs). apply bind_Ok in Hs as (i & Hi & Hs).
  apply bind_Ok in Hs as (o & Ho & Hs). injection Hs as <-. simpl.
  assert (Hopt : forall f f', substitute_optional table f = Ok f' ->
                              (f' = None <-> f = None) /\ (f' = Some None <-> f = Some None)).
  { intros [[s|]|] f'; simpl; intros Hf.
    - apply bind_Ok in Hf as (s' & _ & Hf). injection Hf as <-. split; split; discriminate.
    - injection Hf as <-. tauto.
    - injection Hf as <-. tauto. }
  destruct (Hopt _ _ Hi) as [Hi1 Hi2]. destruct (Hopt _ _ Ho) as [Ho1 Ho2].
  repeat split; try reflexivity; tauto.
Qed.

(** X3: whenever [_substitute] returns on a weight descriptor, the result
    has the flags, the optional marker and the aliases of the input, set or
    unset as in the input, and a space tag is set, or set to null, exactly
    when it was in the input: only the strings of [name], [input_space] and
    [output_space] can differ, and aliases are never substituted. *)
Theorem substitute_keeps_other_fields (self : JsonArchitectureInfo) (config : PretrainedConfig)
    (layer_idx : option Z) (w w' : WeightInfo.t) :
  Json._substitute self w config layer_idx = Ok w' ->
  WeightInfo.is_embed_field w' = WeightInfo.is_embed_field w
  /\ WeightInfo.is_lm_head_field w' = WeightInfo.is_lm_head_field w
  /\ WeightInfo.optional_field w' = WeightInfo.optional_field w
  /\ WeightInfo.aliases_field w' = WeightInfo.aliases_field w
  /\ (WeightInfo.input_space_field w' = None <-> WeightInfo.input_space_field w = None)
  /\ (WeightInfo.input_space_field w' = Some None <-> WeightInfo.input_space_field w = Some None)
  /\ (WeightInfo.output_space_field w' = None <-> WeightInfo.output_space_field w = None)
  /\ (WeightInfo.output_space_field w' = Some None
      <-> WeightInfo.output_space_field w = Some None).
Proof.
  intros Hs. destruct (substitute_Ok_table _ _ _ _ _ Hs) as (nl & table & Hn & Ht).
  rewrite (substitute_weight_fields _ _ _ _ _ _ Hn Ht) in Hs.
  apply bind_Ok in Hs as (n & _ & Hs). apply bind_Ok in Hs as (i & Hi & Hs).
  apply bind_Ok in Hs as (o & Ho & Hs). injection Hs as <-. simpl.
  assert (Hopt : forall f f', substitute_optional table f = Ok f' ->
                              (f' = None <-> f = None) /\ (f' = Some None <-> f = Some None)).
  { intros [[s|]|] f'; simpl; intros Hf.
    - apply bind_Ok in Hf as (s' & _ & Hf). injection Hf as <-. split; split; discriminate.
    - injection Hf as <-. tauto.
    - injection Hf as <-. tauto. }
  destruct (Hopt _ _ Hi) as [Hi1 Hi2]. destruct (Hopt _ _ Ho) as [Ho1 Ho2].
  repeat split; try reflexivity; tauto.
Qed.

Lemma substitute_keeps_other_fields_witness :
  Json._substitute sample_info lm_head sample_config (Some 0) = Ok lm_head
  /\ WeightInfo.aliases_field lm_head = WeightInfo.aliases_field lm_head.
Proof.
  assert (H : Json._substitute sample_info lm_head sample_config (Some 0) = Ok lm_head)
    by (vm_compute; reflexivity).
  split; [exact H|].
  apply (substitute_keeps_other_fields sample_info sample_config (Some 0) lm_head lm_head H).
Defined.

(** X4: whenever [_substitute] returns on a procedural space, the result has
    the inputs of the template verbatim: the names in [inputs] are never
    substituted, placeholders or not. *)
Theorem substitute_keeps_space_inputs (self : JsonArchitectureInfo) (config : PretrainedConfig)
    (layer_idx : option Z) (s s' : ProceduralSpaceInfo.t) :
  Json._substitute self s config layer_idx = Ok s' ->
  ProceduralSpaceInfo.inputs s' = ProceduralSpaceInfo.inputs s.
Proof.
  intros Hs. destruct (substitute_Ok_table _ _ _ _ _ Hs) as (nl & table & Hn & Ht).
  rewrite (substitute_space_fields _ _ _ _ _ _ Hn Ht) in Hs.
  apply bind_Ok in Hs as (n & _ & Hs). injection Hs as <-. reflexivity.
Qed.

Lemma substitute_keeps_space_inputs_witness :
  Json._substitute sample_info
    (ProceduralSpaceInfo.mk "residual_${layer_index}" ["h_${layer_index}"])
    sample_config (Some 1)
  = Ok (ProceduralSpaceInfo.mk "residual_1" ["h_${layer_index}"])
  /\ ProceduralSpaceInfo.inputs (ProceduralSpaceInfo.mk "residual_1" ["h_${layer_index}"])
     = ProceduralSpaceInfo.inputs
         (ProceduralSpaceInfo.mk "residual_${layer_index}" ["h_${layer_index}"]).
Proof.
  assert (H : Json._substitute sample_info
                (ProceduralSpaceInfo.mk "residual_${layer_index}" ["h_${layer_index}"])
                sample_config (Some 1)
              = Ok (ProceduralSpaceInfo.mk "residual_1" ["h_${layer_index}"]))
    by (vm_compute; reflexivity).
  split; [exact H|].
  apply (substitute_keeps_space_inputs sample_info sample_config (Some 1) _ _ H).
Defined.

(** ** Errors of [_substitute] *)

(** X5: [_substitute] reads the layer count before it looks at the
    descriptor: on a configuration without the attribute it raises
    [AttributeError] for the definition's key, and on an attribute that is
    not an integer it raises [TypeError], whatever the descriptor holds. *)
Theorem substitute_needs_layer_count {T} `{BaseModel T} (self : JsonArchitectureInfo)
    (config : PretrainedConfig) (layer_idx : option Z) (item : T) (key : string) :
  Json.num_layers_config_key self = Some key ->
  (config !! key = None ->
   Json._substitute self item config layer_idx = Err (AttributeError key))
  /\ (forall v, config !! key = Some v -> (forall n, v <> PyInt n) ->
      Json._substitute self item config layer_idx
      = Err (TypeError "unsupported operand type(s) for +")).
Proof.
  intros Hkey. unfold Json._substitute, Json.num_layers, getattr. rewrite Hkey. split.
  - intros Hmiss. rewrite Hmiss. reflexivity.
  - intros v Hv Hint. rewrite Hv. simpl.
    destruct v as [| n | s | l]; try reflexivity.
    exfalso. apply (Hint n). reflexivity.
Qed.

Lemma substitute_needs_layer_count_witness :
  Json._substitute sample_info (WeightInfo.of_name "a.${") (∅ : PretrainedConfig) None
  = Err (AttributeError "num_hidden_layers").
Proof.
  refine (proj1 (substitute_needs_layer_count sample_info ∅ None (WeightInfo.of_name "a.${")
                   "num_hidden_layers" _) _); reflexivity.
Defined.

(** X6: a descriptor (a weight or a procedural space) whose name mentions,
    after text without delimiter, a braced identifier for which the table
    has no entry makes [_substitute] raise [KeyError] with that identifier;
    in particular [${layer_index}] in a weight or a global space substituted
    without layer index. *)
Theorem substitute_unknown_placeholder (self : JsonArchitectureInfo)
    (config : PretrainedConfig) (layer_idx : option Z) (N : Z) (table : gmap string Z)
    (pre id post : string) (w : WeightInfo.t) (inputs : list string) :
  Json.num_layers self config = Ok (PyInt N) ->
  Json.substitutions (PyInt N) layer_idx = Ok table ->
  contains "$" pre = false ->
  is_identifier id = true ->
  table !! id = None ->
  Json._substitute self (with_name w (pre +:+ "${" +:+ id +:+ "}" +:+ post)) config layer_idx
  = Err (KeyError id)
  /\ Json._substitute self
       (ProceduralSpaceInfo.mk (pre +:+ "${" +:+ id +:+ "}" +:+ post) inputs) config layer_idx
     = Err (KeyError id).
Proof.
  intros Hn Ht Hpre Hid Hmiss.
  assert (Hstr : substitute_str table (pre +:+ "${" +:+ id +:+ "}" +:+ post)
                 = Err (KeyError id)).
  { unfold substitute_str.
    replace (contains "{" (pre +:+ "${" +:+ id +:+ "}" +:+ post)) with true.
    - rewrite (braced_placeholder_rewritten _ _ _ _ Hpre Hid), Hmiss. reflexivity.
    - rewrite contains_append.
      change ("${" +:+ id +:+ "}" +:+ post)
        with (String "$" (String "{" (id +:+ "}" +:+ post))).
      simpl. rewrite orb_true_r. reflexivity. }
  split.
  - rewrite (substitute_weight_fields _ _ _ _ _ _ Hn Ht).
    unfold with_name; cbn [WeightInfo.name]. rewrite Hstr. reflexivity.
  - rewrite (substitute_space_fields _ _ _ _ _ _ Hn Ht).
    cbn [ProceduralSpaceInfo.name]. rewrite Hstr. reflexivity.
Qed.

Lemma substitute_unknown_placeholder_witness :
  Json._substitute sample_info
    (with_name embed_tokens ("model.layers." +:+ "${" +:+ "layer_index" +:+ "}" +:+ ".w"))
    sample_config None
  = Err (KeyError "layer_index")
  /\ Json._substitute sample_info
       (ProceduralSpaceInfo.mk ("model.layers." +:+ "${" +:+ "layer_index" +:+ "}" +:+ ".w")
          ["embed"])
       sample_config None
     = Err (KeyError "layer_index").
Proof.
  apply (substitute_unknown_placeholder sample_info sample_config None 2
           (<["num_layers-1" := 2 - 1]> (<["num_layers+1" := 2 + 1]> (<["num_layers" := 2]> ∅)))
           "model.layers." "layer_index" ".w" embed_tokens ["embed"]); reflexivity.
Defined.

(** ** Distinct layers, distinct names *)

Lemma str_of_int_inj (n m : Z) : str_of_int n = str_of_int m -> n = m.
Proof.
  unfold str_of_int. intros H.
  assert (Hnn : forall z, Z.to_int z <> Decimal.Pos Decimal.Nil
                          /\ Z.to_int z <> Decimal.Neg Decimal.Nil).
  { intros [|p|p]; simpl; split; try discriminate;
      intros E; injection E as E; exact (DecimalPos.Unsigned.to_uint_nonnil p E). }
  apply DecimalZ.to_int_inj.
  assert (E : Some (Z.to_int n) = Some (Z.to_int m)).
  { rewrite <- (NilZero.isi (Z.to_int n)), <- (NilZero.isi (Z.to_int m)), H;
      try apply Hnn. reflexivity. }
  injection E as E. exact E.
Qed.

Lemma append_cancel_r (a b s : string) : a +:+ s = b +:+ s -> a = b.
Proof.
  revert b. induction a as [|x a IH]; intros [|y b] H; simpl in H.
  - reflexivity.
  - exfalso. apply (f_equal String.length) in H. simpl in H. rewrite length_append in H. lia.
  - exfalso. apply (f_equal String.length) in H. simpl in H. rewrite length_append in H. lia.
  - injection H as -> H. f_equal. apply IH, H.
Qed.

Lemma append_cancel_l (s a b : string) : s +:+ a = s +:+ b -> a = b.
Proof. induction s as [|x s IH]; simpl; intros H; [exact H | injection H as H; auto]. Qed.

(** X7: for a layer template whose name is text, [${layer_index}], text
    (both without delimiter), the names substituted for two different
    layer indices are different. *)
Theorem layer_names_distinct (self : JsonArchitectureInfo) (config : PretrainedConfig)
    (N i j : Z) (pre post : string) (w wi wj : WeightInfo.t) :
  Json.num_layers self config = Ok (PyInt N) ->
  contains "$" pre = false ->
  contains "$" post = false ->
  Json._substitute self (with_name w (pre +:+ "${layer_index}" +:+ post)) config (Some i)
  = Ok wi ->
  Json._substitute self (with_name w (pre +:+ "${layer_index}" +:+ post)) config (Some j)
  = Ok wj ->
  i <> j ->
  WeightInfo.name wi <> WeightInfo.name wj.
Proof.
  intros Hn Hpre Hpost Hi Hj Hne Heq. apply Hne.
  assert (Hname : forall k wk,
             Json._substitute self (with_name w (pre +:+ "${layer_index}" +:+ post)) config
               (Some k) = Ok wk ->
             WeightInfo.name wk = pre +:+ str_of_int k +:+ post).
  { intros k wk Hk.
    rewrite (substitute_weight_fields _ _ (Some k) _ _ _ Hn eq_refl) in Hk.
    apply bind_Ok in Hk as (n & Hnm & Hk).
    apply bind_Ok in Hk as (i' & _ & Hk). apply bind_Ok in Hk as (o' & _ & Hk).
    injection Hk as <-. unfold with_name in Hnm; cbn [WeightInfo.name] in *.
    unfold substitute_str in Hnm.
    replace (contains "{" (pre +:+ "${layer_index}" +:+ post)) with true in Hnm
      by (rewrite contains_append; simpl; rewrite orb_true_r; reflexivity).
    change (pre +:+ "${layer_index}" +:+ post)
      with (pre +:+ "${" +:+ "layer_index" +:+ "}" +:+ post) in Hnm.
    rewrite (braced_placeholder_rewritten _ pre "layer_index" post Hpre eq_refl) in Hnm.
    change ((<["layer_index-1" := k - 1]>
               (<["layer_index+1" := k + 1]>
                  (<["layer_index" := k]>
                     (<["num_layers-1" := N - 1]>
                        (<["num_layers+1" := N + 1]> (<["num_layers" := N]> ∅))))) : gmap string Z)
              !! "layer_index") with (Some k) in Hnm.
    unfold Template.substitute in Hnm. rewrite (sub_no_delimiter _ _ Hpost) in Hnm.
    injection Hnm as <-. reflexivity. }
  rewrite (Hname i wi Hi), (Hname j wj Hj) in Heq.
  apply append_cancel_l, append_cancel_r in Heq. apply str_of_int_inj, Heq.
Qed.

Lemma layer_names_distinct_witness :
  WeightInfo.name (WeightInfo.of_name ("model.layers." +:+ str_of_int 0 +:+ ".w"))
  <> WeightInfo.name (WeightInfo.of_name ("model.layers." +:+ str_of_int 1 +:+ ".w")).
Proof.
  apply (layer_names_distinct sample_info sample_config 2 0 1 "model.layers." ".w"
           (WeightInfo.of_name "x")); first [ reflexivity | lia ].
Defined.

(** ** Enumeration over any implementation *)

Lemma length_flat_map_const {A B} (f : A -> list B) (l : list A) (L : nat) :
  Forall (fun x => length (f x) = L) l ->
  length (flat_map f l) = (length l * L)%nat.
Proof.
  induction 1 as [|x l Hx _ IH]; simpl; [reflexivity|].
  rewrite length_app, Hx, IH. reflexivity.
Qed.

Lemma range_bounds (N i : Z) : In i (range N) -> 0 <= i < N.
Proof.
  unfold range. intros Hi. apply in_map_iff in Hi as (k & <- & Hk).
  apply in_seq in Hk. lia.
Qed.

(** X8: over any implementation of [ArchitectureInfo] whose [pre_weights],
    [post_weights] and [layer_weights] (at the indices 0..N-1) return, with
    every layer giving [L] descriptors, [all_weights] returns the
    pre-weights, then the layers in ascending index order, then the
    post-weights: [P + N*L + Q] descriptors for a layer count [N >= 0]. *)
Theorem all_weights_count (info : ArchitectureInfo.t) (config : PretrainedConfig)
    (N : Z) (L : nat) (pre post : list WeightInfo.t) (layer : Z -> list WeightInfo.t) :
  0 <= N ->
  ArchitectureInfo.num_layers info config = Ok (PyInt N) ->
  ArchitectureInfo.pre_weights info config = Ok pre ->
  (forall i, 0 <= i < N ->
             ArchitectureInfo.layer_weights info i config = Ok (layer i)
             /\ length (layer i) = L) ->
  ArchitectureInfo.post_weights info config = Ok post ->
  ArchitectureInfo.all_weights info config
  = Ok (pre ++ flat_map layer (range N) ++ post)
  /\ Z.of_nat (length (pre ++ flat_map layer (range N) ++ post))
     = Z.of_nat (length pre) + N * Z.of_nat L + Z.of_nat (length post).
Proof.
  intros HN Hn Hpre Hlayer Hpost. split.
  - apply all_weights_order; try assumption. intros i Hi. apply Hlayer, Hi.
  - rewrite !length_app, (length_flat_map_const layer (range N) L).
    + rewrite length_range. lia.
    + apply List.Forall_forall. intros i Hi. apply Hlayer, range_bounds, Hi.
Qed.

Lemma all_weights_count_witness :
  ArchitectureInfo.all_weights listed_info sample_config
  = Ok ([embed_tokens]
        ++ flat_map
             (fun index => [WeightInfo.of_name ("model.layers." +:+ str_of_int index +:+ ".w")])
             (range 2)
        ++ [final_norm; lm_head])
  /\ Z.of_nat (length ([embed_tokens]
        ++ flat_map
             (fun index => [WeightInfo.of_name ("model.layers." +:+ str_of_int index +:+ ".w")])
             (range 2)
        ++ [final_norm; lm_head]))
     = Z.of_nat (length [embed_tokens]) + 2 * Z.of_nat 1
       + Z.of_nat (length [final_norm; lm_head]).
Proof.
  apply (all_weights_count listed_info sample_config 2 1 [embed_tokens] [final_norm; lm_head]
           (fun index => [WeightInfo.of_name ("model.layers." +:+ str_of_int index +:+ ".w")]));
    try reflexivity; try lia.
  intros i Hi. split; reflexivity.
Defined.

(** X9: a layer count that is zero or negative is accepted: [all_weights]
    then returns the pre-weights followed by the post-weights and never asks
    for a layer. *)
Theorem all_weights_no_layers (info : ArchitectureInfo.t) (config : PretrainedConfig)
    (N : Z) (pre post : list WeightInfo.t) :
  N <= 0 ->
  ArchitectureInfo.num_layers info config = Ok (PyInt N) ->
  ArchitectureInfo.pre_weights info config = Ok pre ->
  ArchitectureInfo.post_weights info config = Ok post ->
  ArchitectureInfo.all_weights info config = Ok (pre ++ post).
Proof.
  intros HN Hn Hpre Hpost. unfold ArchitectureInfo.all_weights.
  rewrite Hn; simpl. rewrite Hpre; simpl.
  unfold range. replace (Z.to_nat N) with O by lia. simpl.
  rewrite Hpost. reflexivity.
Qed.

Lemma all_weights_no_layers_witness :
  ArchitectureInfo.all_weights listed_info (<["num_hidden_layers" := PyInt (-3)]> ∅)
  = Ok ([embed_tokens] ++ [final_norm; lm_head]).
Proof.
  apply (all_weights_no_layers listed_info (<["num_hidden_layers" := PyInt (-3)]> ∅) (-3));
    first [ reflexivity | lia ].
Defined.

(** X10: whichever implementation the resolver hands back, declarative
    definition or plugin, [all_weights] on it raises: the plugin delegates
    its pre-weights to the declarative [MISTRAL_INFO], whose [pre_weights]
    reads the missing attribute. *)
Theorem all_weights_never_returns (MISTRAL_INFO : JsonArchitectureInfo) (a : architecture)
    (config : PretrainedConfig) :
  exists e, ArchitectureInfo.all_weights (as_info MISTRAL_INFO a) config = Err e.
Proof.
  destruct a as [j | m]; simpl.
  - destruct (json_pre_weights_raises j config) as [e He].
    apply (all_weights_pre_raises (of_json j) config e He).
  - destruct (json_pre_weights_raises MISTRAL_INFO config) as [e He].
    apply (all_weights_pre_raises (of_mixtral MISTRAL_INFO m) config e He).
Qed.

(** ** Per-layer weights of a declarative definition *)

Lemma comprehension_Forall2 {A B} (f : A -> result B) (l : list A) (r : list B) :
  comprehension f l = Ok r -> Forall2 (fun x y => f x = Ok y) l r.
Proof.
  revert r. induction l as [|x l IH]; simpl; intros r H.
  - injection H as <-. constructor.
  - apply bind_Ok in H as (y & Hy & H). apply bind_Ok in H as (ys & Hys & H).
    injection H as <-. constructor; [exact Hy | apply IH, Hys].
Qed.

(** X11: whenever [layer_weights] of a declarative definition returns, it
    returns one descriptor per layer template, in template order, each with
    the flags, optional marker and aliases of its template. *)
Theorem layer_weights_follow_templates (self : JsonArchitectureInfo) (index : Z)
    (config : PretrainedConfig) (res : list WeightInfo.t) :
  Json.layer_weights self index config = Ok res ->
  Forall2
    (fun template w =>
       WeightInfo.is_embed_field w = WeightInfo.is_embed_field template
       /\ WeightInfo.is_lm_head_field w = WeightInfo.is_lm_head_field template
       /\ WeightInfo.optional_field w = WeightInfo.optional_field template
       /\ WeightInfo.aliases_field w = WeightInfo.aliases_field template)
    (lt_weights (JSONArchitectureDefinition.layer_templates (definition self))) res.
Proof.
  intros H. apply comprehension_Forall2 in H.
  eapply Forall2_impl; [exact H|]. simpl. intros t w Hs.
  destruct (substitute_other_fields _ _ _ _ _ Hs) as (He & Hh & Hp & Ha & _).
  auto.
Qed.

Lemma layer_weights_follow_templates_witness :
  Json.layer_weights sample_info 1 sample_config
  = Ok [WeightInfo.mk "model.layers.1.self_attn.q_proj.weight"
          None None (Some (Some "h_1")) None None None]
  /\ Forall2
       (fun template w =>
          WeightInfo.is_embed_field w = WeightInfo.is_embed_field template
          /\ WeightInfo.is_lm_head_field w = WeightInfo.is_lm_head_field template
          /\ WeightInfo.optional_field w = WeightInfo.optional_field template
          /\ WeightInfo.aliases_field w = WeightInfo.aliases_field template)
       (lt_weights (JSONArchitectureDefinition.layer_templates (definition sample_info)))
       [WeightInfo.mk "model.layers.1.self_attn.q_proj.weight"
          None None (Some (Some "h_1")) None None None].
Proof.
  assert (H : Json.layer_weights sample_info 1 sample_config
              = Ok [WeightInfo.mk "model.layers.1.self_attn.q_proj.weight"
                      None None (Some (Some "h_1")) None None None])
    by (vm_compute; reflexivity).
  split; [exact H|].
  apply (layer_weights_follow_templates sample_info 1 sample_config _ H).
Defined.

(** ** Overrides of a configured architecture, continued *)

(** X12: an override dictionary that lists post-weights only makes
    [pre_weights] of the configured architecture raise [KeyError], while
    [post_weights] returns the stored list. *)
Theorem configured_override_missing_segment (self : ConfiguredArchitectureInfo.t)
    (d : gmap string (list string)) (names : list string) :
  ConfiguredArchitectureInfo.overrides self = Some d ->
  d !! "pre_weights" = None ->
  d !! "post_weights" = Some names ->
  ConfiguredArchitectureInfo.pre_weights self = Err (KeyError "pre_weights")
  /\ ConfiguredArchitectureInfo.post_weights self = Ok (Names names).
Proof.
  intros Ho Hpre Hpost. split.
  - unfold ConfiguredArchitectureInfo.pre_weights, dict_truthy. rewrite Ho.
    destruct (Nat.eqb (size d) 0) eqn:Hsz; simpl.
    + apply Nat.eqb_eq in Hsz. apply map_size_empty_iff in Hsz. subst d.
      rewrite lookup_empty in Hpost. discriminate.
    + unfold dict_getitem. rewrite Hpre. reflexivity.
  - apply (configured_post_weights_names self d names Ho Hpost).
Qed.

Lemma configured_override_missing_segment_witness :
  ConfiguredArchitectureInfo.pre_weights
    (ConfiguredArchitectureInfo.update_overrides overridden
       (<["post_weights" := ["lm_head.weight"]]> ∅))
  = Err (KeyError "pre_weights")
  /\ ConfiguredArchitectureInfo.post_weights
       (ConfiguredArchitectureInfo.update_overrides overridden
          (<["post_weights" := ["lm_head.weight"]]> ∅))
     = Ok (Names ["lm_head.weight"]).
Proof.
  apply (configured_override_missing_segment _ (<["post_weights" := ["lm_head.weight"]]> ∅));
    reflexivity.
Defined.

(** X13: a configured architecture over a declarative definition never
    returns descriptors from [pre_weights] or [post_weights]: whenever
    [pre_weights] returns, the overrides are a non-empty dictionary and the
    result is the list of names it stores under [pre_weights]; whenever
    [post_weights] returns, the result is the list stored under
    [post_weights]. *)
Theorem configured_json_returns_names_only (j : JsonArchitectureInfo)
    (config : PretrainedConfig) (o : option (gmap string (list string)))
    (res : weights_or_names) :
  (ConfiguredArchitectureInfo.pre_weights (ConfiguredArchitectureInfo.mk (of_json j) config o)
   = Ok res ->
   exists d names,
     o = Some d /\ d <> ∅ /\ d !! "pre_weights" = Some names /\ res = Names names)
  /\ (ConfiguredArchitectureInfo.post_weights
        (ConfiguredArchitectureInfo.mk (of_json j) config o)
      = Ok res ->
      exists d names,
        o = Some d /\ d <> ∅ /\ d !! "post_weights" = Some names /\ res = Names names).
Proof.
  unfold ConfiguredArchitectureInfo.pre_weights, ConfiguredArchitectureInfo.post_weights.
  simpl. split; intros H.
  - destruct (dict_truthy o) eqn:Ht; simpl in H.
    + destruct o as [d|]; [|discriminate Ht].
      unfold dict_getitem in H. destruct (d !! "pre_weights") as [names|] eqn:Hd;
        [|discriminate]. injection H as <-.
      exists d, names. repeat split; try assumption.
      intros ->. rewrite lookup_empty in Hd. discriminate.
    + destruct (json_pre_weights_raises j config) as [e He]. rewrite He in H. discriminate.
  - destruct (dict_truthy o) eqn:Ht; simpl in H.
    + destruct o as [d|]; [|discriminate Ht].
      unfold dict_getitem in H. destruct (d !! "post_weights") as [names|] eqn:Hd;
        [|discriminate]. injection H as <-.
      exists d, names. repeat split; try assumption.
      intros ->. rewrite lookup_empty in Hd. discriminate.
    + destruct (json_post_weights_raises j config) as [e He]. rewrite He in H. discriminate.
Qed.

Lemma configured_json_returns_names_only_witness :
  exists d names,
    Some one_override = Some d
    /\ d <> ∅
    /\ d !! "pre_weights" = Some names
    /\ Names ["model.embed_tokens.weight"] = Names names.
Proof.
  refine (proj1 (configured_json_returns_names_only three_pre_weights (config_of "X" "a")
                   (Some one_override) (Names ["model.embed_tokens.weight"])) _).
  reflexivity.
Defined.

(** ** The index from names to definitions *)

Lemma extend_extend {A} (o : option (list A)) (l1 l2 : list A) :
  extend (extend o l1) l2 = extend o (l1 ++ l2).
Proof.
  destruct l1 as [|x l1]; [reflexivity|].
  destruct l2 as [|y l2]; simpl.
  - rewrite app_nil_r. reflexivity.
  - rewrite <- app_assoc. reflexivity.
Qed.

(** The inner loop of [_load_all_architectures], seen at one name. *)
Lemma index_names (arch_info : JsonArchitectureInfo) (names : list string)
    (m : gmap string (list JsonArchitectureInfo)) (name : string) :
  fold_left
    (fun name_to_arch n =>
       <[n := default [] (name_to_arch !! n) ++ [arch_info]]> name_to_arch)
    names m !! name
  = extend (m !! name) (map (fun _ => arch_info) (List.filter (String.eqb name) names)).
Proof.
  revert m. induction names as [|n names IH]; intros m; [reflexivity|].
  cbn [fold_left List.filter]. rewrite IH.
  destruct (String.eqb_spec name n) as [<- | Hne].
  - rewrite lookup_insert_eq.
    change (Some (default [] (m !! name) ++ [arch_info]))
      with (extend (m !! name) [arch_info]).
    rewrite extend_extend. reflexivity.
  - rewrite lookup_insert_ne by congruence. reflexivity.
Qed.

(** The outer loop, from any starting index. *)
Lemma index_architectures (architectures : list JsonArchitectureInfo)
    (m : gmap string (list JsonArchitectureInfo)) (name : string) :
  fold_left
    (fun name_to_arch arch_info =>
       fold_left
         (fun name_to_arch n =>
            <[n := default [] (name_to_arch !! n) ++ [arch_info]]> name_to_arch)
         (JSONArchitectureDefinition.architectures (definition arch_info))
         name_to_arch)
    architectures m !! name
  = extend (m !! name) (declaring name architectures).
Proof.
  revert m. induction architectures as [|a architectures IH]; intros m; [reflexivity|].
  cbn [fold_left]. rewrite IH, index_names.
  unfold declaring at 2. cbn [flat_map]. rewrite extend_extend. reflexivity.
Qed.

Lemma name_to_arch_declaring (architectures : list JsonArchitectureInfo) (name : string) :
  name_to_arch architectures !! name
  = match declaring name architectures with
    | [] => None
    | l => Some l
    end.
Proof.
  unfold name_to_arch. rewrite index_architectures, lookup_empty.
  destruct (declaring name architectures); reflexivity.
Qed.

(** X14: the index built by [_load_all_architectures] maps a name to the
    loaded definitions that declare it, in load order (a definition that
    lists the name twice appears twice), and has no entry for a name that
    no definition declares; an entry is never an empty list. *)
Theorem name_to_arch_lookup (architectures : list JsonArchitectureInfo) (name : string) :
  name_to_arch architectures !! name
  = match declaring name architectures with
    | [] => None
    | l => Some l
    end.
Proof.
  unfold name_to_arch. rewrite index_architectures, lookup_empty.
  destruct (declaring name architectures); reflexivity.
Qed.

Lemma in_declaring (name : string) (architectures : list JsonArchitectureInfo)
    (c : JsonArchitectureInfo) :
  In c (declaring name architectures)
  <-> In c architectures
      /\ In name (JSONArchitectureDefinition.architectures (definition c)).
Proof.
  unfold declaring. rewrite in_flat_map. split.
  - intros (a & Ha & Hc). apply in_map_iff in Hc as (n & <- & Hn).
    apply filter_In in Hn as [Hn Heq]. apply String.eqb_eq in Heq. subst n. auto.
  - intros [Hc Hn]. exists c. split; [exact Hc|].
    apply in_map_iff. exists name. split; [reflexivity|].
    apply filter_In. split; [exact Hn | apply String.eqb_refl].
Qed.

(** ** The resolver over the loaded index *)

Lemma select_by_model_type_in (candidates : list JsonArchitectureInfo)
    (config : PretrainedConfig) (c : JsonArchitectureInfo) :
  select_by_model_type candidates config = Ok (Some c) -> In c candidates.
Proof.
  induction candidates as [|c' cs IH]; simpl; [discriminate|].
  intros H. apply bind_Ok in H as (mt & _ & H).
  destruct (expects mt c'); [injection H as <-; auto | auto].
Qed.

(** X15: when the resolver, run over the index of the loaded definitions,
    returns a declarative definition, that definition is one of the loaded
    ones and declares the architecture name the configuration gives. *)
Theorem resolver_returns_declaring_definition (architectures : list JsonArchitectureInfo)
    (config : PretrainedConfig) (c : JsonArchitectureInfo) :
  _load_architecture_info (name_to_arch architectures) config = Ok (JsonArch c) ->
  exists v name,
    config !! "architectures" = Some v
    /\ py_first v = Ok (PyStr name)
    /\ In c architectures
    /\ In name (JSONArchitectureDefinition.architectures (definition c)).
Proof.
  unfold _load_architecture_info, getattr. intros H.
  destruct (config !! "architectures") as [v|] eqn:Hv; [|discriminate]. simpl in H.
  apply bind_Ok in H as (n & _ & H).
  destruct (negb (Nat.eqb n 1)); [discriminate|].
  apply bind_Ok in H as (arch_name & Hfirst & H).
  destruct (py_eq_str Mixtral.ARCHITECTURE_NAME arch_name).
  { apply bind_Ok in H as (m & _ & H). discriminate. }
  destruct arch_name as [| k | name | l]; try discriminate.
  exists v, name. split; [reflexivity|]. split; [exact Hfirst|].
  apply (in_declaring name).
  rewrite name_to_arch_declaring in H.
  destruct (declaring name architectures) as [|c1 cs] eqn:Hd; [discriminate|].
  assert (Hsel : forall cands,
             (found ← select_by_model_type cands config;
              match found with
              | Some c => Ok (JsonArch c)
              | None =>
                  model_type ← getattr config (Some "model_type");
                  Err (RuntimeError (UnsupportedModelType model_type (PyStr name)))
              end) = Ok (JsonArch c) -> In c cands).
  { intros cands Hc. apply bind_Ok in Hc as ([c'|] & Hsel & Hc).
    - injection Hc as <-. apply (select_by_model_type_in _ _ _ Hsel).
    - apply bind_Ok in Hc as (mt & _ & Hc). discriminate. }
  destruct cs as [|c2 cs].
  - injection H as <-. left. reflexivity.
  - apply Hsel, H.
Qed.

Lemma resolver_returns_declaring_definition_witness :
  exists v name,
    config_of "X" "b" !! "architectures" = Some v
    /\ py_first v = Ok (PyStr name)
    /\ In def_b [def_a; def_b]
    /\ In name (JSONArchitectureDefinition.architectures (definition def_b)).
Proof.
  apply (resolver_returns_declaring_definition [def_a; def_b] (config_of "X" "b") def_b).
  vm_compute. reflexivity.
Defined.



(** X17: a configuration that declares the plugin's name is resolved without
    the index: to the plugin built with the expert count the configuration
    holds, and to [AttributeError] when the configuration holds none. *)
Theorem resolver_plugin (NAME_TO_ARCH : gmap string (list JsonArchitectureInfo))
    (config : PretrainedConfig) :
  config !! "architectures" = Some (PyList [PyStr "MixtralForCausalLM"]) ->
  (forall E, config !! "num_local_experts" = Some (PyInt E) ->
             _load_architecture_info NAME_TO_ARCH config
             = Ok (MixtralArch {| num_local_experts := E |}))
  /\ (config !! "num_local_experts" = None ->
      _load_architecture_info NAME_TO_ARCH config = Err (AttributeError "num_local_experts")).
Proof.
  intros Harch. rewrite (resolver_one_name _ _ _ Harch).
  change (py_eq_str Mixtral.ARCHITECTURE_NAME (PyStr "MixtralForCausalLM")) with true.
  cbv iota. unfold Mixtral.from_config, getattr. split.
  - intros E HE. rewrite HE. reflexivity.
  - intros HE. rewrite HE. reflexivity.
Qed.

Lemma resolver_plugin_witness :
  _load_architecture_info (name_to_arch [def_a; mixtral_a])
    (config_of "MixtralForCausalLM" "a")
  = Ok (MixtralArch {| num_local_experts := 8 |}).
Proof.
  refine (proj1 (resolver_plugin (name_to_arch [def_a; mixtral_a])
                   (config_of "MixtralForCausalLM" "a") _) 8 _); reflexivity.
Defined.

(** X18: a configuration whose one architecture name (other than the
    plugin's) is declared by none of the loaded definitions is rejected with
    the unsupported-architecture error. *)
Theorem resolver_unknown_architecture (architectures : list JsonArchitectureInfo)
    (config : PretrainedConfig) (name : string) :
  config !! "architectures" = Some (PyList [PyStr name]) ->
  name <> Mixtral.ARCHITECTURE_NAME ->
  (forall a, In a architectures ->
             ~ In name (JSONArchitectureDefinition.architectures (definition a))) ->
  _load_architecture_info (name_to_arch architectures) config
  = Err (RuntimeError (UnsupportedArchitecture (PyStr name))).
Proof.
  intros Harch Hname Hnone. rewrite (resolver_one_name _ _ _ Harch).
  unfold py_eq_str.
  destruct (String.eqb Mixtral.ARCHITECTURE_NAME name) eqn:Heq.
  { apply String.eqb_eq in Heq. congruence. }
  rewrite name_to_arch_declaring.
  destruct (declaring name architectures) as [|c cs] eqn:Hd; [reflexivity|].
  exfalso. assert (Hin : In c (declaring name architectures)) by (rewrite Hd; left; reflexivity).
  apply in_declaring in Hin as [Hc Hn]. exact (Hnone c Hc Hn).
Qed.

Lemma resolver_unknown_architecture_witness :
  _load_architecture_info (name_to_arch [def_a; def_b]) (config_of "Y" "a")
  = Err (RuntimeError (UnsupportedArchitecture (PyStr "Y"))).
Proof.
  apply (resolver_unknown_architecture [def_a; def_b] (config_of "Y" "a") "Y");
    first [ reflexivity | discriminate | idtac ].
  intros a [<- | [<- | []]] [H | []]; discriminate H.
Defined.

(** X19: a configuration without the attribute [architectures] makes the
    resolver raise [AttributeError], and one whose [architectures] is [None]
    makes it raise [TypeError], not the error of the length check. *)
Theorem resolver_without_architectures (NAME_TO_ARCH : gmap string (list JsonArchitectureInfo))
    (config : PretrainedConfig) :
  (config !! "architectures" = None ->
   _load_architecture_info NAME_TO_ARCH config = Err (AttributeError "architectures"))
  /\ (config !! "architectures" = Some PyNone ->
      _load_architecture_info NAME_TO_ARCH config
      = Err (TypeError "object of type 'NoneType' has no len()")).
Proof.
  unfold _load_architecture_info, getattr. split; intros H; rewrite H; reflexivity.
Qed.

Lemma resolver_without_architectures_witness :
  _load_architecture_info (name_to_arch [def_a])
    (<["architectures" := PyNone]> (config_of "X" "a"))
  = Err (TypeError "object of type 'NoneType' has no len()").
Proof.
  refine (proj2 (resolver_without_architectures (name_to_arch [def_a])
                   (<["architectures" := PyNone]> (config_of "X" "a"))) _); reflexivity.
Defined.

(** X20: among two or more candidates for the declared name, the resolver
    returns the first one in load order whose expected model type equals the
    declared model type, also when several candidates expect it. *)
Theorem resolver_first_match (NAME_TO_ARCH : gmap string (list JsonArchitectureInfo))
    (config : PretrainedConfig) (name : string)
    (candidates : list JsonArchitectureInfo) (model_type : pyval) :
  config !! "architectures" = Some (PyList [PyStr name]) ->
  name <> Mixtral.ARCHITECTURE_NAME ->
  NAME_TO_ARCH !! name = Some candidates ->
  (2 <= length candidates)%nat ->
  config !! "model_type" = Some model_type ->
  _load_architecture_info NAME_TO_ARCH config
  = match List.find (expects model_type) candidates with
    | Some c => Ok (JsonArch c)
    | None => Err (RuntimeError (UnsupportedModelType model_type (PyStr name)))
    end.
Proof.
  intros Harch Hname Hcand Hlen Hmt. rewrite (resolver_one_name _ _ _ Harch).
  unfold py_eq_str.
  destruct (String.eqb Mixtral.ARCHITECTURE_NAME name) eqn:Heq.
  { apply String.eqb_eq in Heq. congruence. }
  rewrite Hcand.
  destruct candidates as [|c1 [|c2 cs]]; simpl in Hlen; try lia.
  rewrite (select_by_model_type_find _ _ _ Hmt).
  destruct (List.find _ _); [reflexivity|].
  unfold getattr. rewrite Hmt. reflexivity.
Qed.

Lemma resolver_first_match_witness :
  _load_architecture_info (name_to_arch [def_a; def_a_again]) (config_of "X" "a")
  = match List.find (expects (PyStr "a")) [def_a; def_a_again] with
    | Some c => Ok (JsonArch c)
    | None => Err (RuntimeError (UnsupportedModelType (PyStr "a") (PyStr "X")))
    end.
Proof.
  apply (resolver_first_match (name_to_arch [def_a; def_a_again]) (config_of "X" "a") "X"
           [def_a; def_a_again] (PyStr "a"));
    first [ reflexivity | discriminate | simpl; lia ].
Defined.

(** ** The tensors of the plugin *)

(** [layer_weights] of the plugin in closed form, for any expert count. *)
Lemma mixtral_layer_weights_eq (self : MixtralTensorNames) (L : Z) (config : PretrainedConfig) :
  Mixtral.layer_weights self L config
  = Ok (map WeightInfo.of_name
          (flat_map (expert_group L) (range (num_local_experts self)) ++ [gate_tensor L])).
Proof.
  unfold Mixtral.layer_weights. cbv zeta.
  rewrite (fold_left_append_group _ (expert_group L)).
  - rewrite fold_left_append_one. reflexivity.
  - intros acc x. apply expert_names_group.
Qed.

(** X21: a plugin built with an expert count that is zero or negative
    returns the routing gate as the only descriptor of a layer. *)
Theorem mixtral_no_experts (self : MixtralTensorNames) (L : Z) (config : PretrainedConfig) :
  num_local_experts self <= 0 ->
  Mixtral.layer_weights self L config = Ok [WeightInfo.of_name (gate_tensor L)].
Proof.
  intros HE. rewrite mixtral_layer_weights_eq.
  unfold range. replace (Z.to_nat (num_local_experts self)) with O by lia. reflexivity.
Qed.

Lemma mixtral_no_experts_witness :
  Mixtral.layer_weights {| num_local_experts := -1 |} 0 sample_config
  = Ok [WeightInfo.of_name (gate_tensor 0)].
Proof.
  apply (mixtral_no_experts {| num_local_experts := -1 |} 0 sample_config). simpl. lia.
Defined.

Lemma uint_no_dot (d : Decimal.uint) : contains "." (NilEmpty.string_of_uint d) = false.
Proof. induction d; simpl; auto. Qed.

Lemma str_of_int_no_dot (n : Z) : contains "." (str_of_int n) = false.
Proof.
  unfold str_of_int, NilZero.string_of_int, NilZero.string_of_uint.
  destruct (Z.to_int n) as [d | d]; destruct d; simpl; try reflexivity; apply uint_no_dot.
Qed.

(** Two strings cut at their first dot. *)
Lemma split_at_dot (a b x y : string) :
  contains "." a = false ->
  contains "." b = false ->
  a +:+ String "." x = b +:+ String "." y ->
  a = b /\ x = y.
Proof.
  revert b. induction a as [|c a IH]; intros [|d b] Ha Hb H; simpl in *.
  - injection H as ->. auto.
  - injection H as <- _. apply orb_false_iff in Hb as [Hd _]. discriminate.
  - injection H as -> _. apply orb_false_iff in Ha as [Hc _]. discriminate.
  - injection H as -> H. apply orb_false_iff in Ha as [_ Ha].
    apply orb_false_iff in Hb as [_ Hb].
    destruct (IH b Ha Hb H) as [-> ->]. auto.
Qed.

Lemma expert_tensor_inj (L e e' : Z) (p p' : string) :
  expert_tensor L e p = expert_tensor L e' p' -> e = e' /\ p = p'.
Proof.
  unfold expert_tensor. intros H.
  apply append_cancel_l, append_cancel_l in H.
  apply split_at_dot in H as [He Hp]; try apply str_of_int_no_dot.
  split; [apply str_of_int_inj, He | apply append_cancel_r in Hp; exact Hp].
Qed.

Lemma gate_not_expert (L e : Z) (p : string) : gate_tensor L <> expert_tensor L e p.
Proof.
  unfold gate_tensor, expert_tensor. intros H. apply append_cancel_l in H.
  simpl in H. discriminate H.
Qed.

Lemma in_expert_group (L e : Z) (x : string) :
  In x (expert_group L e) ->
  exists p, x = expert_tensor L e p /\ (p = "w1" \/ p = "w2" \/ p = "w3").
Proof.
  unfold expert_group. simpl. intros [<- | [<- | [<- | []]]]; eauto 6.
Qed.

Lemma NoDup_expert_group (L e : Z) : List.NoDup (expert_group L e).
Proof.
  unfold expert_group.
  repeat constructor; simpl; intros H;
    repeat match goal with
           | H : _ \/ _ |- _ => destruct H as [H | H]
           | H : False |- _ => destruct H
           | H : expert_tensor _ _ _ = expert_tensor _ _ _ |- _ =>
               apply expert_tensor_inj in H as [_ H]; discriminate H
           end.
Qed.

Lemma NoDup_expert_groups (L : Z) (l : list Z) :
  List.NoDup l -> List.NoDup (flat_map (expert_group L) l).
Proof.
  induction 1 as [|e l Hnot Hnd IH]; cbn [flat_map]; [constructor|].
  apply List.NoDup_app; [apply NoDup_expert_group | exact IH |].
  intros x Hx Hx'. apply in_expert_group in Hx as (p & -> & _).
  apply in_flat_map in Hx' as (e' & He' & Hx').
  apply in_expert_group in Hx' as (p' & Heq & _).
  apply expert_tensor_inj in Heq as [-> _]. contradiction.
Qed.

Lemma NoDup_range (n : Z) : List.NoDup (range n).
Proof.
  unfold range. generalize (Z.to_nat n) as k. generalize O as a.
  intros a k. revert a. induction k as [|k IH]; intros a; simpl; constructor.
  - intros H. apply in_map_iff in H as (b & Hb & Hin). apply in_seq in Hin. lia.
  - apply IH.
Qed.

(** X22: the descriptors [layer_weights] of the plugin returns for a layer
    carry pairwise different names, whatever the expert count and the layer
    index. *)
Theorem mixtral_names_distinct (self : MixtralTensorNames) (L : Z) (config : PretrainedConfig) :
  exists res,
    Mixtral.layer_weights self L config = Ok res
    /\ List.NoDup (map WeightInfo.name res).
Proof.
  eexists. split; [apply mixtral_layer_weights_eq|].
  rewrite map_map. cbn [WeightInfo.name WeightInfo.of_name]. rewrite map_id.
  apply List.NoDup_app.
  - apply NoDup_expert_groups, NoDup_range.
  - repeat constructor. intros [].
  - intros x Hx [<- | []].
    apply in_flat_map in Hx as (e & _ & Hx).
    apply in_expert_group in Hx as (p & Heq & _).
    exact (gate_not_expert L e p Heq).
Qed.

(** ** The mapping loader, continued *)

(** X23: whenever the loader returns a table, no (source, destination)
    pair can be found in it: every row it holds is empty. *)
Theorem mapping_table_holds_no_pair (resources : list MappingInfo.t)
    (table : gmap string (gmap string mapping_entry)) (src dst : string)
    (row : gmap string mapping_entry) :
  _load_all_mappings resources = Ok table ->
  table !! src = Some row ->
  row !! dst = None.
Proof.
  intros Hload Hrow.
  assert (Hrows : rows_empty table).
  { unfold _load_all_mappings in Hload.
    eapply (for_each_invariant rows_empty); [| |exact Hload].
    - intros acc mapping acc' Hacc Hstep.
      eapply (for_each_invariant rows_empty); [| exact Hacc | exact Hstep].
      intros acc0 start acc1 Hacc0 H. eapply add_start_rows_empty; eauto.
    - intros s r Hs. rewrite lookup_empty in Hs. discriminate. }
  rewrite (Hrows _ _ Hrow). apply lookup_empty.
Qed.

Lemma mapping_table_holds_no_pair_witness :
  _load_all_mappings [mapping_without_destination] = Ok (<["LlamaForCausalLM" := ∅]> ∅)
  /\ (∅ : gmap string mapping_entry) !! "MistralForCausalLM" = None.
Proof.
  assert (H : _load_all_mappings [mapping_without_destination]
              = Ok (<["LlamaForCausalLM" := ∅]> ∅)) by reflexivity.
  split; [exact H|].
  apply (mapping_table_holds_no_pair [mapping_without_destination]
           (<["LlamaForCausalLM" := ∅]> ∅) "LlamaForCausalLM" "MistralForCausalLM" ∅ H).
  reflexivity.
Defined.

Lemma for_each_app {A S} (body : S -> A -> result S) (l1 l2 : list A) (acc : S) :
  for_each body (l1 ++ l2) acc = (acc' ← for_each body l1 acc; for_each body l2 acc').
Proof.
  revert acc. induction l1 as [|x l1 IH]; intros acc; simpl; [reflexivity|].
  destruct (body acc x) as [acc'|e]; simpl; [apply IH | reflexivity].
Qed.

(** The loop over the start architectures of one resource, from a table
    without pairs: it raises, or the resource is degenerate and the table
    still has no pair. *)
Lemma add_starts_result (mapping : MappingInfo.t) (starts : list string)
    (acc : gmap string (gmap string mapping_entry)) :
  rows_empty acc ->
  for_each (add_start mapping) starts acc
  = Err (TypeError "'MappingInfo' object is not subscriptable")
  \/ ((starts = [] \/ MappingInfo.destination_architectures mapping = [])
      /\ exists acc', for_each (add_start mapping) starts acc = Ok acc' /\ rows_empty acc').
Proof.
  revert acc. induction starts as [|s starts IH]; intros acc Hacc.
  - right. split; [left; reflexivity | exists acc; split; [reflexivity | exact Hacc]].
  - cbn [for_each].
    destruct (add_start mapping acc s) as [acc1|e] eqn:Hs.
    + pose proof (add_start_rows_empty _ _ _ _ Hacc Hs) as H1.
      assert (Hd : MappingInfo.destination_architectures mapping = []).
      { unfold add_start in Hs.
        destruct (MappingInfo.destination_architectures mapping) as [|d ds]; [reflexivity|].
        exfalso. cbn [for_each] in Hs.
        rewrite add_destination_raises in Hs; [discriminate|].
        destruct (acc !! s) eqn:Hl; [exact Hacc|].
        intros src row Hrow. destruct (decide (s = src)) as [->|Hne].
        - rewrite lookup_insert_eq in Hrow. congruence.
        - rewrite lookup_insert_ne in Hrow by exact Hne. eapply Hacc, Hrow. }
      simpl. destruct (IH acc1 H1) as [He | [_ (acc' & Hok & Hrows)]].
      * left. exact He.
      * right. split; [right; exact Hd | eauto].
    + left. simpl. unfold add_start in Hs.
      destruct (MappingInfo.destination_architectures mapping) as [|d ds];
        [discriminate Hs|].
      cbn [for_each] in Hs. rewrite add_destination_raises in Hs.
      * simpl in Hs. injection Hs as <-. reflexivity.
      * destruct (acc !! s) eqn:Hl; [exact Hacc|].
        intros src row Hrow. destruct (decide (s = src)) as [->|Hne].
        -- rewrite lookup_insert_eq in Hrow. congruence.
        -- rewrite lookup_insert_ne in Hrow by exact Hne. eapply Hacc, Hrow.
Qed.

(** The loop over the resources, likewise. *)
Lemma load_resources_result (resources : list MappingInfo.t)
    (acc : gmap string (gmap string mapping_entry)) :
  rows_empty acc ->
  for_each
    (fun mappings mapping =>
       for_each (add_start mapping) (MappingInfo.start_architectures mapping) mappings)
    resources acc
  = Err (TypeError "'MappingInfo' object is not subscriptable")
  \/ (Forall degenerate resources
      /\ exists acc',
          for_each
            (fun mappings mapping =>
               for_each (add_start mapping) (MappingInfo.start_architectures mapping) mappings)
            resources acc = Ok acc'
          /\ rows_empty acc').
Proof.
  revert acc. induction resources as [|m resources IH]; intros acc Hacc.
  - right. split; [constructor | exists acc; split; [reflexivity | exact Hacc]].
  - cbn [for_each].
    destruct (add_starts_result m (MappingInfo.start_architectures m) acc Hacc)
      as [He | [Hdeg (acc1 & Hok & H1)]].
    + left. rewrite He. reflexivity.
    + rewrite Hok. simpl. destruct (IH acc1 H1) as [He | [Hall (acc' & Hok' & Hrows)]].
      * left. exact He.
      * right. split; [constructor; [exact Hdeg | exact Hall] | eauto].
Qed.

(** X24: as soon as one mapping resource names both a start and a
    destination architecture, the loader raises [TypeError], wherever the
    resource stands among the others. *)
Theorem load_all_mappings_raises_on_pair (resources : list MappingInfo.t)
    (mapping : MappingInfo.t) :
  In mapping resources ->
  MappingInfo.start_architectures mapping <> [] ->
  MappingInfo.destination_architectures mapping <> [] ->
  _load_all_mappings resources = Err (TypeError "'MappingInfo' object is not subscriptable").
Proof.
  intros Hin Hs Hd. unfold _load_all_mappings.
  destruct (load_resources_result resources ∅) as [He | [Hall _]].
  - intros s r Hr. rewrite lookup_empty in Hr. discriminate.
  - exact He.
  - exfalso. rewrite List.Forall_forall in Hall.
    destruct (Hall mapping Hin) as [H | H]; contradiction.
Qed.

Lemma load_all_mappings_raises_on_pair_witness :
  _load_all_mappings [mapping_without_destination; sample_mapping]
  = Err (TypeError "'MappingInfo' object is not subscriptable").
Proof.
  apply (load_all_mappings_raises_on_pair [mapping_without_destination; sample_mapping]
           sample_mapping); first [ discriminate | simpl; auto ].
Defined.

(** ** Procedural spaces *)

Lemma for_each_unchanged {A S} (body : S -> A -> result S) (l : list A) (acc : S) :
  (forall acc x, body acc x = Ok acc) -> for_each body l acc = Ok acc.
Proof.
  intros Hbody. induction l as [|x l IH]; simpl; [reflexivity|].
  rewrite Hbody. exact IH.
Qed.

Lemma list_truthy_false {A} (o : option (list A)) : list_truthy o = false -> or_empty o = [].
Proof. destruct o as [[|x l]|]; simpl; [reflexivity | discriminate | reflexivity]. Qed.

(** X25: a definition that reports no defined spaces has no procedural
    spaces either: with a layer count that can be read as an integer,
    [procedural_spaces] returns the empty list. *)
Theorem no_defined_spaces_no_procedural_spaces (self : JsonArchitectureInfo)
    (config : PretrainedConfig) (N : Z) :
  JsonSpaces.has_defined_spaces self = false ->
  Json.num_layers self config = Ok (PyInt N) ->
  JsonSpaces.procedural_spaces self config = Ok [].
Proof.
  unfold JsonSpaces.has_defined_spaces, JsonSpaces.procedural_spaces. intros Hno Hn.
  destruct (list_truthy (JSONArchitectureDefinition.procedural_spaces (definition self)))
    eqn:Hg; [discriminate|].
  destruct (list_truthy (lt_procedural_spaces
                           (JSONArchitectureDefinition.layer_templates (definition self))))
    eqn:Hl; [discriminate|].
  rewrite (list_truthy_false _ Hg), (list_truthy_false _ Hl), Hn. simpl.
  apply for_each_unchanged. reflexivity.
Qed.

Lemma no_defined_spaces_no_procedural_spaces_witness :
  JsonSpaces.procedural_spaces def_a sample_config = Ok [].
Proof.
  apply (no_defined_spaces_no_procedural_spaces def_a sample_config 2); reflexivity.
Defined.

Lemma for_each_length {A B} (body : list B -> A -> result (list B)) (k : nat)
    (l : list A) (acc r : list B) :
  (forall acc x acc', body acc x = Ok acc' -> length acc' = (length acc + k)%nat) ->
  for_each body l acc = Ok r ->
  length r = (length acc + length l * k)%nat.
Proof.
  intros Hbody. revert acc. induction l as [|x l IH]; simpl; intros acc H.
  - injection H as <-. lia.
  - apply bind_Ok in H as (acc' & Hx & H). rewrite (IH _ H), (Hbody _ _ _ Hx). lia.
Qed.

Lemma append_space_length (self : JsonArchitectureInfo) (config : PretrainedConfig)
    (layer_idx : option Z) (res res' : list ProceduralSpaceInfo.t) (s : ProceduralSpaceInfo.t) :
  JsonSpaces.append_space self config layer_idx res s = Ok res' ->
  length res' = (length res + 1)%nat.
Proof.
  unfold JsonSpaces.append_space. intros H. apply bind_Ok in H as (s' & _ & H).
  injection H as <-. rewrite length_app. reflexivity.
Qed.

(** X26: whenever [procedural_spaces] of a declarative definition returns,
    the layer count [N] was read as an integer and the result holds one
    space per global template followed by one space per layer template and
    layer: [G + N*S] spaces, a zero or negative [N] counting as no layer. *)
Theorem procedural_spaces_count (self : JsonArchitectureInfo) (config : PretrainedConfig)
    (res : list ProceduralSpaceInfo.t) :
  JsonSpaces.procedural_spaces self config = Ok res ->
  exists N,
    Json.num_layers self config = Ok (PyInt N)
    /\ length res
       = (length (or_empty (JSONArchitectureDefinition.procedural_spaces (definition self)))
          + Z.to_nat N
            * length (or_empty (lt_procedural_spaces
                                  (JSONArchitectureDefinition.layer_templates
                                     (definition self)))))%nat.
Proof.
  unfold JsonSpaces.procedural_spaces. intros H.
  apply bind_Ok in H as (g & Hg & H). apply bind_Ok in H as (nl & Hn & H).
  apply bind_Ok in H as (indices & Hi & H).
  destruct nl as [| N | s | l]; try discriminate. injection Hi as <-.
  exists N. split; [exact Hn|].
  apply (for_each_length _ 1) in Hg; [|intros a x a'; apply append_space_length].
  apply (for_each_length _
           (length (or_empty (lt_procedural_spaces
                                (JSONArchitectureDefinition.layer_templates
                                   (definition self)))))) in H.
  - rewrite H, Hg, length_range. simpl. lia.
  - intros a idx a' Hstep.
    apply (for_each_length _ 1) in Hstep; [|intros b x b'; apply append_space_length].
    lia.
Qed.

Lemma procedural_spaces_count_witness :
  exists N,
    Json.num_layers spaces_info sample_config = Ok (PyInt N)
    /\ length [ProceduralSpaceInfo.mk "residual_in" ["embed"];
               ProceduralSpaceInfo.mk "residual_0" ["h_${layer_index}"];
               ProceduralSpaceInfo.mk "residual_1" ["h_${layer_index}"]]
       = (length (or_empty (JSONArchitectureDefinition.procedural_spaces
                              (definition spaces_info)))
          + Z.to_nat N
            * length (or_empty (lt_procedural_spaces
                                  (JSONArchitectureDefinition.layer_templates
                                     (definition spaces_info)))))%nat.
Proof.
  apply (procedural_spaces_count spaces_info sample_config). vm_compute. reflexivity.
Defined.

(** ** Model cards *)

Section CardProperties.

Variable path_exists : string -> bool.
Variable repo_exists : string -> result bool.

(** X27: a path that starts with a slash or a tilde, or holds more than one
    slash, is never taken for a hub repository, whatever the file system and
    the hub say; the empty path makes [is_hf] raise [IndexError]. *)
Theorem is_hf_local_path (c : ascii) (rest : string) :
  c = "/"%char \/ c = "~"%char \/ (2 <= count_char "/" (String c rest))%nat ->
  is_hf path_exists repo_exists (String c rest) = Ok false
  /\ is_hf path_exists repo_exists EmptyString = Err (IndexError "string index out of range").
Proof.
  intros H. split; [|reflexivity]. unfold is_hf.
  destruct H as [-> | [-> | H]]; try reflexivity.
  replace (1 <? count_char "/" (String c rest))%nat with true.
  - rewrite orb_true_r. reflexivity.
  - symmetry. apply Nat.ltb_lt. lia.
Qed.

(** What one round of the loop adds: paths for which [is_hf] holds, taken
    from the model at hand. *)
Lemma extract_one_sound (acc acc' : list string) (m : ModelReference) (p : string) :
  extract_one path_exists repo_exists acc m = Ok acc' ->
  In p acc' ->
  In p acc
  \/ (is_hf path_exists repo_exists p = Ok true /\ (p = path m \/ lora_path m = Some p)).
Proof.
  unfold extract_one. intros H Hin.
  destruct (is_hf path_exists repo_exists (path m)) as [h|e1] eqn:Hp; simpl in H;
    [|discriminate].
  assert (Hfirst : forall q, In q (if h then acc ++ [path m] else acc) ->
                             In q acc
                             \/ (is_hf path_exists repo_exists q = Ok true /\ q = path m)).
  { intros q Hq. destruct h; [|auto].
    apply in_app_or in Hq as [Hq | [<- | []]]; auto. }
  destruct (str_truthy (lora_path m)) eqn:Ht.
  - destruct (lora_path m) as [lora|] eqn:Hlora; [|discriminate Ht]. simpl in H.
    destruct (is_hf path_exists repo_exists lora) as [hl|e2] eqn:Hl; simpl in H;
      [|discriminate].
    injection H as <-.
    destruct hl.
    + apply in_app_or in Hin as [Hin | [<- | []]].
      * destruct (Hfirst _ Hin) as [? | [? ?]]; auto.
      * right. auto.
    + destruct (Hfirst _ Hin) as [? | [? ?]]; auto.
  - injection H as <-. destruct (Hfirst _ Hin) as [? | [? ?]]; auto.
Qed.

Lemma extract_loop_sound (models : list ModelReference) (acc l : list string) (p : string) :
  for_each (extract_one path_exists repo_exists) models acc = Ok l ->
  In p l ->
  In p acc
  \/ (is_hf path_exists repo_exists p = Ok true
      /\ exists m, In m models /\ (p = path m \/ lora_path m = Some p)).
Proof.
  revert acc. induction models as [|m models IH]; simpl; intros acc H Hin.
  - injection H as <-. auto.
  - apply bind_Ok in H as (acc' & Hm & H).
    destruct (IH _ H Hin) as [Hacc | (Hhf & m' & Hm' & Hp)].
    + destruct (extract_one_sound _ _ _ _ Hm Hacc) as [? | [? ?]]; [auto|].
      right. split; [assumption|]. exists m. auto.
    + right. split; [assumption|]. exists m'. auto.
Qed.

(** X28: every path [extract_hf_paths] yields is the path or the LoRA path
    of one of the models given, and one for which [is_hf] holds. *)
Theorem extract_hf_paths_sound (models : list ModelReference) (l : list string) (p : string) :
  extract_hf_paths path_exists repo_exists models = Ok l ->
  In p l ->
  is_hf path_exists repo_exists p = Ok true
  /\ exists m, In m models /\ (p = path m \/ lora_path m = Some p).
Proof.
  intros H Hin. destruct (extract_loop_sound models [] l p H Hin) as [[] | Hp]. exact Hp.
Qed.

Lemma for_each_map {A S} (body : S -> A -> result S) (f : A -> A) (l : list A) (acc : S) :
  (forall acc x, body acc (f x) = body acc x) ->
  for_each body (map f l) acc = for_each body l acc.
Proof.
  intros Hf. revert acc. induction l as [|x l IH]; intros acc; simpl; [reflexivity|].
  rewrite Hf. destruct (body acc x); simpl; [apply IH | reflexivity].
Qed.


End CardProperties.

Lemma is_hf_local_path_witness :
  is_hf (fun _ => false) (fun _ => Ok true) (String "/" "models/llama") = Ok false
  /\ is_hf (fun _ => false) (fun _ => Ok true) EmptyString
     = Err (IndexError "string index out of range").
Proof.
  apply (is_hf_local_path (fun _ => false) (fun _ => Ok true) "/" "models/llama").
  left. reflexivity.
Defined.

Lemma extract_hf_paths_sound_witness :
  is_hf (fun _ => false) (fun _ => Ok true) "org/adapter" = Ok true
  /\ exists m,
      In m [ {| path := "/local/base"; lora_path := Some "org/adapter" |} ]
      /\ ("org/adapter" = path m \/ lora_path m = Some "org/adapter").
Proof.
  apply (extract_hf_paths_sound (fun _ => false) (fun _ => Ok true)
           [ {| path := "/local/base"; lora_path := Some "org/adapter" |} ]
           ["org/adapter"] "org/adapter").
  - reflexivity.
  - left. reflexivity.
Defined.


Lemma method_md_unknown (merge_method : string) :
  merge_method <> "dare_linear" ->
  merge_method <> "dare_ties" ->
  merge_method <> "task_arithmetic" ->
  merge_method <> "slerp" ->
  merge_method <> "ties" ->
  merge_method <> "linear" ->
  method_md merge_method = merge_method.
Proof.
  intros. unfold method_md.
  rewrite !lookup_insert_ne by congruence. rewrite lookup_empty. reflexivity.
Qed.

(** X30: [method_md] passes a merge method it does not know through
    unchanged, and its output is never itself a known method: applying it
    twice gives what applying it once gives. *)
Theorem method_md_idempotent (merge_method : string) :
  method_md (method_md merge_method) = method_md merge_method.
Proof.
  destruct (decide (merge_method = "dare_linear")) as [-> | H1]; [reflexivity|].
  destruct (decide (merge_method = "dare_ties")) as [-> | H2]; [reflexivity|].
  destruct (decide (merge_method = "task_arithmetic")) as [-> | H3]; [reflexivity|].
  destruct (decide (merge_method = "slerp")) as [-> | H4]; [reflexivity|].
  destruct (decide (merge_method = "ties")) as [-> | H5]; [reflexivity|].
  destruct (decide (merge_method = "linear")) as [-> | H6]; [reflexivity|].
  rewrite (method_md_unknown merge_method) by assumption.
  apply method_md_unknown; assumption.
Qed.
